(** * Table-mode page of a compliance assessment: client-side state model

    Shallow embedding of the script part (and of the event handlers of the
    markup) of
    [frontend/src/routes/(app)/(third-party)/compliance-assessments/[id=uuid]/table-mode/+page.svelte].

    The page keeps its records in memory, mutates them in place when the
    user clicks, and posts every change to the server without waiting for
    the answer.  The model below makes that state explicit:

    - the records are Rocq records, with [option] for the properties that
      may be [null];
    - the component's mutable variables, the requests handed to [fetch] and
      the modals handed to the modal store form one record, [Page];
    - a script function is a computation [JS A] over [Page] that either
      returns or throws, and keeps the state reached when it throws.

    The each-block variable [requirementAssessment] is the object
    [data.requirement_assessments[k]]; the model names it by its position
    [k], so that an assignment to one of its properties is an update of the
    list at [k].  The page data is a tree, as it comes out of the load
    function: no object is shared by two records, nor by the collections
    [data.requirements] and [data.requirement_assessments]. *)

From stdpp Require Import base option strings list gmap.
From Stdlib Require Import ZArith.

Open Scope string_scope.
Open Scope Z_scope.

(** ** Data model *)

(** An evidence reference, [{ str, id }]. *)
Module Evidence.
Record t := mk { str : string; id : string }.
#[global] Instance evidence_eq_dec : EqDecision t.
Proof. solve_decision. Defined.
End Evidence.

(** A question of an answer bundle.  [answer] is a scalar or [null]. *)
Module Question.
Record t := mk {
  urn : string;
  text : string;
  type : string;
  options : list string;
  answer : option string
}.
#[global] Instance question_eq_dec : EqDecision t.
Proof. solve_decision. Defined.

Definition with_answer (value : option string) (q : t) : t :=
  mk (urn q) (text q) (type q) (options q) value.
End Question.

(** The answer bundle of an assessment, [{ questions: [...] }]. *)
Module Answer.
Record t := mk { questions : list Question.t }.
#[global] Instance answer_eq_dec : EqDecision t.
Proof. solve_decision. Defined.
End Answer.

(** A record of the page data.  The script reads the same properties from
    the elements of [data.requirements] and of
    [data.requirement_assessments] ([id], [display_short], [name],
    [evidences]), so one record type serves both collections. *)
Module RequirementAssessment.
Record t := mk {
  id : string;
  requirement : string;
  display_short : option string;
  name : option string;
  description : option string;
  assessable : bool;
  status : string;
  result : string;
  answer : option Answer.t;
  observation : option string;
  observationBuffer : option string;
  evidences : list Evidence.t
}.
#[global] Instance requirement_assessment_eq_dec : EqDecision t.
Proof. solve_decision. Defined.

Definition with_status (v : string) (a : t) : t :=
  mk (id a) (requirement a) (display_short a) (name a) (description a)
     (assessable a) v (result a) (answer a) (observation a)
     (observationBuffer a) (evidences a).
Definition with_result (v : string) (a : t) : t :=
  mk (id a) (requirement a) (display_short a) (name a) (description a)
     (assessable a) (status a) v (answer a) (observation a)
     (observationBuffer a) (evidences a).
Definition with_answer (v : option Answer.t) (a : t) : t :=
  mk (id a) (requirement a) (display_short a) (name a) (description a)
     (assessable a) (status a) (result a) v (observation a)
     (observationBuffer a) (evidences a).
Definition with_observation (v : option string) (a : t) : t :=
  mk (id a) (requirement a) (display_short a) (name a) (description a)
     (assessable a) (status a) (result a) (answer a) v
     (observationBuffer a) (evidences a).
Definition with_observationBuffer (v : option string) (a : t) : t :=
  mk (id a) (requirement a) (display_short a) (name a) (description a)
     (assessable a) (status a) (result a) (answer a) (observation a)
     v (evidences a).
Definition with_evidences (v : list Evidence.t) (a : t) : t :=
  mk (id a) (requirement a) (display_short a) (name a) (description a)
     (assessable a) (status a) (result a) (answer a) (observation a)
     (observationBuffer a) v.
End RequirementAssessment.

(** The result of the evidence creation action,
    [{ id, name, requirements: [...] }]. *)
Module CreatedEvidence.
Record t := mk { id : string; name : string; requirements : list string }.
End CreatedEvidence.

(** The part of [PageData] the script uses. *)
Module PageData.
Record t := mk {
  requirements : list RequirementAssessment.t;
  requirement_assessments : list RequirementAssessment.t
}.
End PageData.

(** What [update] puts under the key [[field]] of the request body: a
    scalar, [null], or the whole answer bundle. *)
Inductive JSON :=
| JNull
| JString (s : string)
| JAnswer (a : Answer.t).

#[global] Instance JSON_eq_dec : EqDecision JSON.
Proof. solve_decision. Defined.

Definition scalar (value : option string) : JSON :=
  match value with
  | Some s => JString s
  | None => JNull
  end.

(** A call of [fetch(url, { method, body })].  [body] is the object given
    to [JSON.stringify], a snapshot of its value at the call. *)
Record Request := mkRequest {
  url : string;
  method : string;
  body : gmap string JSON
}.

(** A modal handed to [modalStore.trigger]. *)
Record Modal := mkModal {
  formAction : string;
  modal_id : string;
  modal_name : string
}.

Inductive exn :=
| TypeError (what : string).

Inductive outcome (A : Type) :=
| Ok (a : A)
| Throw (e : exn).
Arguments Ok {A} a.
Arguments Throw {A} e.

(** The mutable state of the component. *)
Record Page := mkPage {
  data : PageData.t;
  shallow : bool;
  actionPath : string;
  createdEvidence : option CreatedEvidence.t;
  addedEvidence : Z;
  fetched : list Request;
  modals : list Modal
}.

Definition with_requirements (rs : list RequirementAssessment.t) (p : Page) : Page :=
  mkPage (PageData.mk rs (PageData.requirement_assessments (data p)))
         (shallow p) (actionPath p) (createdEvidence p) (addedEvidence p)
         (fetched p) (modals p).
Definition with_requirement_assessments (rs : list RequirementAssessment.t) (p : Page) : Page :=
  mkPage (PageData.mk (PageData.requirements (data p)) rs)
         (shallow p) (actionPath p) (createdEvidence p) (addedEvidence p)
         (fetched p) (modals p).
Definition with_createdEvidence (c : option CreatedEvidence.t) (p : Page) : Page :=
  mkPage (data p) (shallow p) (actionPath p) c (addedEvidence p)
         (fetched p) (modals p).
Definition with_addedEvidence (n : Z) (p : Page) : Page :=
  mkPage (data p) (shallow p) (actionPath p) (createdEvidence p) n
         (fetched p) (modals p).
Definition with_fetched (rs : list Request) (p : Page) : Page :=
  mkPage (data p) (shallow p) (actionPath p) (createdEvidence p)
         (addedEvidence p) rs (modals p).
Definition with_modals (ms : list Modal) (p : Page) : Page :=
  mkPage (data p) (shallow p) (actionPath p) (createdEvidence p)
         (addedEvidence p) (fetched p) ms.

(** ** Computations that may throw *)

Definition JS (A : Type) : Type := Page → outcome A * Page.

#[global] Instance JS_ret : MRet JS := λ A a p, (Ok a, p).
#[global] Instance JS_bind : MBind JS := λ A B f m p,
  match m p with
  | (Ok a, p') => f a p'
  | (Throw e, p') => (Throw e, p')
  end.

Definition throw {A} (e : exn) : JS A := λ p, (Throw e, p).
Definition get : JS Page := λ p, (Ok p, p).
Definition modify (f : Page → Page) : JS unit := λ p, (Ok tt, f p).

(** Reading a property of a value that may be [undefined] or [null]. *)
Definition defined {A} (what : string) (o : option A) : JS A :=
  match o with
  | Some a => mret a
  | None => throw (TypeError what)
  end.

(** ** JavaScript library functions *)

(** [a === b] on strings and on string-or-null values. *)
Definition strict_eq `{EqDecision A} (a b : A) : bool := bool_decide (a = b).
Infix "===" := strict_eq (at level 70, no associativity).

(** Truthiness of a string-or-null value: [null], [undefined] and the
    empty string are falsy. *)
Definition truthy (s : option string) : bool :=
  match s with
  | Some s => negb (s === "")
  | None => false
  end.

(** [Array.prototype.findIndex]: the first index whose element satisfies
    the predicate, [-1] when there is none. *)
Definition findIndex {A} (pred : A → bool) (l : list A) : Z :=
  match list_find (λ x, pred x = true) l with
  | Some (i, _) => Z.of_nat i
  | None => -1
  end.

(** [l[i]] for an integer [i]: [undefined] outside of the array. *)
Definition at_index {A} (l : list A) (i : Z) : option A :=
  if decide (i < 0) then None else l !! Z.to_nat i.

(** [Array.prototype.find]: the first element that satisfies the
    predicate, with its position. *)
Definition find {A} (pred : A → bool) (l : list A) : option (nat * A) :=
  list_find (λ x, pred x = true) l.

(** [Object.fromEntries]: a later entry overrides an earlier one with the
    same key. *)
Definition fromEntries {V} (entries : list (string * V)) : gmap string V :=
  foldl (λ m e, <[e.1 := e.2]> m) ∅ entries.

(** ** The rendered forms

    The markup renders, for every assessable element of
    [data.requirement_assessments], a form with id
    [tableModeForm-{requirementAssessment.id}] and action
    [{actionPath}?/updateRequirementAssessment]; the status, result,
    question and observation controls are inside that form. *)

Record Form := mkForm {
  form_id : string;
  action : string
}.

Definition forms (p : Page) : list Form :=
  (λ requirementAssessment,
     mkForm ("tableModeForm-" +:+ RequirementAssessment.id requirementAssessment)
            (actionPath p +:+ "?/updateRequirementAssessment"))
  <$> filter (λ requirementAssessment,
                RequirementAssessment.assessable requirementAssessment = true)
             (PageData.requirement_assessments (data p)).

(** [document.getElementById]: the first element with that id, or [null]. *)
Definition getElementById (i : string) : JS (option Form) :=
  p ← get;
  mret (snd <$> find (λ f, form_id f === i) (forms p)).

(** [fetch(url, { method, body })]: the request is handed over and the
    promise is dropped. *)
Definition fetch (u m : string) (b : gmap string JSON) : JS unit :=
  modify (λ p, with_fetched (fetched p ++ [mkRequest u m b]) p).

(** ** The record index and the title

    The index is a plain object keyed by the ids of the requirements.
    [requirementHashmap] holds its own properties; a read
    [requirementHashmap[key]] that finds no own property falls through to
    [Object.prototype]. *)

(** What [title] can read of a property inherited from [Object.prototype]:
    a built-in function, which has a [name] and no [display_short], or,
    for the accessor [__proto__], the prototype object itself, which has
    neither. *)
Inductive Inherited :=
| InheritedFunction (name : string)
| InheritedPrototype.

(** The properties of [Object.prototype].  [constructor] is the function
    [Object]; the name of every other function is its key. *)
Definition Object_prototype (key : string) : option Inherited :=
  if decide (key = "constructor") then Some (InheritedFunction "Object")
  else if decide (key = "__proto__") then Some InheritedPrototype
  else if decide (key ∈ ["hasOwnProperty"; "isPrototypeOf"; "propertyIsEnumerable";
                         "toLocaleString"; "toString"; "valueOf";
                         "__defineGetter__"; "__defineSetter__";
                         "__lookupGetter__"; "__lookupSetter__"])
       then Some (InheritedFunction key)
       else None.

(** The value of [requirementHashmap[key] ?? requirementAssessment]: a
    record, or a property inherited from [Object.prototype]. *)
Inductive Property :=
| OwnProperty (requirement : RequirementAssessment.t)
| InheritedProperty (inherited : Inherited).

(** [requirementHashmap[key]]: the own property if there is one, else the
    inherited one, else [undefined]. *)
Definition property_of (requirementHashmap : gmap string RequirementAssessment.t)
    (key : string) : option Property :=
  match requirementHashmap !! key with
  | Some requirement => Some (OwnProperty requirement)
  | None => InheritedProperty <$> Object_prototype key
  end.

(** [requirement.display_short] and [requirement.name] on such a value. *)
Definition display_short_of (requirement : Property) : option string :=
  match requirement with
  | OwnProperty requirement => RequirementAssessment.display_short requirement
  | InheritedProperty _ => None
  end.

Definition name_of (requirement : Property) : option string :=
  match requirement with
  | OwnProperty requirement => RequirementAssessment.name requirement
  | InheritedProperty (InheritedFunction name) => Some name
  | InheritedProperty InheritedPrototype => None
  end.

Definition requirementHashmap (d : PageData.t) : gmap string RequirementAssessment.t :=
  fromEntries ((λ requirement, (RequirementAssessment.id requirement, requirement))
               <$> PageData.requirements d).

Definition title (requirementHashmap : gmap string RequirementAssessment.t)
    (requirementAssessment : RequirementAssessment.t) : string :=
  let requirement :=
    match property_of requirementHashmap
            (RequirementAssessment.requirement requirementAssessment) with
    | Some requirement => requirement
    | None => OwnProperty requirementAssessment
    end in
  if truthy (display_short_of requirement)
  then default "" (display_short_of requirement)
  else match name_of requirement with
       | Some name => name
       | None => ""
       end.

(** ** The field mutator *)

(** The object [data.requirement_assessments[k]]; reading a property of it
    throws when there is no such element. *)
Definition requirement_assessment (k : nat) : JS RequirementAssessment.t :=
  p ← get;
  defined "requirementAssessment" (PageData.requirement_assessments (data p) !! k).

(** An assignment to a property of [data.requirement_assessments[k]]. *)
Definition assign (k : nat) (f : RequirementAssessment.t → RequirementAssessment.t) : JS unit :=
  modify (λ p, with_requirement_assessments
                 (alter f k (PageData.requirement_assessments (data p))) p).

(** [update(requirementAssessment, field, value, question)], with
    [requirementAssessment = data.requirement_assessments[k]].  [question]
    is [None] for the default [''], which is falsy; an object is truthy. *)
Definition update (k : nat) (field : string) (value : option string)
    (question : option Question.t) : JS unit :=
  value ← match question with
          | Some question =>
              requirementAssessment ← requirement_assessment k;
              answer ← defined "requirementAssessment.answer"
                         (RequirementAssessment.answer requirementAssessment);
              let questionIndex :=
                findIndex (λ q, Question.urn q === Question.urn question)
                          (Answer.questions answer) in
              q ← defined "questions[questionIndex]"
                    (at_index (Answer.questions answer) questionIndex);
              assign k (RequirementAssessment.with_answer
                          (Some (Answer.mk
                                   (<[Z.to_nat questionIndex := Question.with_answer value q]>
                                      (Answer.questions answer)))));;
              requirementAssessment ← requirement_assessment k;
              answer ← defined "requirementAssessment.answer"
                         (RequirementAssessment.answer requirementAssessment);
              mret (JAnswer answer)
          | None => mret (scalar value)
          end;
  requirementAssessment ← requirement_assessment k;
  form ← getElementById ("tableModeForm-" +:+ RequirementAssessment.id requirementAssessment);
  form ← defined "form" form;
  let formData : gmap string JSON :=
    <[field := value]> {["id" := JString (RequirementAssessment.id requirementAssessment)]} in
  fetch (action form) "POST" formData.

(** ** The click handlers of the markup *)

Definition newStatus (current option_id : string) : string :=
  if current === option_id then "to_do" else option_id.

Definition newResult (current option_id : string) : string :=
  if current === option_id then "not_assessed" else option_id.

Definition newAnswer (current : option string) (choice : string) : option string :=
  if current === Some choice then None else Some choice.

(** Click on the status item [option_id] of assessment [k]. *)
Definition status_click (k : nat) (option_id : string) : JS unit :=
  requirementAssessment ← requirement_assessment k;
  let newStatus := newStatus (RequirementAssessment.status requirementAssessment) option_id in
  assign k (RequirementAssessment.with_status newStatus);;
  update k "status" (Some newStatus) None.

(** Click on the result item [option_id] of assessment [k]. *)
Definition result_click (k : nat) (option_id : string) : JS unit :=
  requirementAssessment ← requirement_assessment k;
  let newResult := newResult (RequirementAssessment.result requirementAssessment) option_id in
  assign k (RequirementAssessment.with_result newResult);;
  update k "result" (Some newResult) None.

(** The each-block variable [question], the object
    [requirementAssessment.answer.questions[j]]. *)
Definition question_at (k j : nat) : JS Question.t :=
  requirementAssessment ← requirement_assessment k;
  answer ← defined "requirementAssessment.answer"
             (RequirementAssessment.answer requirementAssessment);
  defined "question" (Answer.questions answer !! j).

(** An assignment to [question.answer], for that object. *)
Definition assign_question_answer (k j : nat) (value : option string) : JS unit :=
  assign k (λ a, RequirementAssessment.with_answer
                   ((λ b, Answer.mk (alter (Question.with_answer value) j (Answer.questions b)))
                    <$> RequirementAssessment.answer a) a).

(** Click on the item [choice] (the each-block variable [option]) of
    question [j] of assessment [k]. *)
Definition question_click (k j : nat) (choice : string) : JS unit :=
  question ← question_at k j;
  let newAnswer := newAnswer (Question.answer question) choice in
  assign_question_answer k j newAnswer;;
  question ← question_at k j;
  update k "answer" newAnswer (Some question).

(** Change of the date or text input of question [j] of assessment [k]; the
    binding has stored the input's value in [question.answer]. *)
Definition question_change (k j : nat) : JS unit :=
  question ← question_at k j;
  update k "answer" (Question.answer question) (Some question).

(** The save and cancel buttons of the observation of assessment [k]. *)
Definition observation_save (k : nat) : JS unit :=
  requirementAssessment ← requirement_assessment k;
  update k "observation" (RequirementAssessment.observation requirementAssessment) None;;
  requirementAssessment ← requirement_assessment k;
  assign k (RequirementAssessment.with_observationBuffer
              (RequirementAssessment.observation requirementAssessment)).

Definition observation_cancel (k : nat) : JS unit :=
  requirementAssessment ← requirement_assessment k;
  assign k (RequirementAssessment.with_observation
              (RequirementAssessment.observationBuffer requirementAssessment)).

(** The observation text area renders inside the form, when the page is
    not shallow; the two buttons render under it when the buffer differs
    from the observation. *)
Definition observation_editor_renders (p : Page) (a : RequirementAssessment.t) : bool :=
  RequirementAssessment.assessable a && negb (shallow p).

Definition observation_buttons_render (p : Page) (a : RequirementAssessment.t) : bool :=
  RequirementAssessment.assessable a && negb (shallow p)
  && negb (RequirementAssessment.observationBuffer a === RequirementAssessment.observation a).

(** ** Evidence merge and removal *)

(** The unary plus of [addedEvidence = +1]. *)
Definition unary_plus (n : Z) : Z := n.

(** The reactive statement [$: if (createdEvidence && shallow) { ... }]. *)
Definition merge_createdEvidence : JS unit :=
  p ← get;
  match createdEvidence p with
  | Some created =>
      if shallow p then
        found ← defined "find(...)"
                  (find (λ requirementAssessment,
                           Some (RequirementAssessment.id requirementAssessment)
                           === head (CreatedEvidence.requirements created))
                        (PageData.requirements (data p)));
        modify (λ p, with_requirements
                       (alter (λ a, RequirementAssessment.with_evidences
                                      (RequirementAssessment.evidences a
                                       ++ [Evidence.mk (CreatedEvidence.name created)
                                                       (CreatedEvidence.id created)]) a)
                              found.1 (PageData.requirements (data p))) p);;
        modify (with_createdEvidence None);;
        modify (with_addedEvidence (unary_plus 1))
      else mret tt
  | None => mret tt
  end.

(** The reactive declaration [$: createdEvidence = form?.createdEvidence],
    followed by the statement that depends on it. *)
Definition form_changed (created : option CreatedEvidence.t) : JS unit :=
  modify (with_createdEvidence created);;
  merge_createdEvidence.

Definition modalConfirmDelete (id name : string) : JS unit :=
  modify (λ p, with_modals (modals p ++ [mkModal "/evidences?/delete" id name]) p);;
  modify (λ p, with_requirements
                 ((λ requirementAssessment,
                     RequirementAssessment.with_evidences
                       (filter (λ evidence, Evidence.id evidence ≠ id)
                               (RequirementAssessment.evidences requirementAssessment))
                       requirementAssessment)
                  <$> PageData.requirements (data p)) p).

(** ** The reducer of the specification

    The specification names the common shape of [newStatus], [newResult]
    and [newAnswer] [nextValue(current, clicked, defaultValue)]. *)

Definition nextValue `{EqDecision A} (current clicked defaultValue : A) : A :=
  if bool_decide (clicked = current) then defaultValue else clicked.

(** The title of the specification: the short display name if one is set
    (present and not empty), else the long name if one is set, else the
    empty string. *)
Definition title_of (source : RequirementAssessment.t) : string :=
  match RequirementAssessment.display_short source with
  | Some short =>
      if decide (short = "") then default "" (RequirementAssessment.name source)
      else short
  | None => default "" (RequirementAssessment.name source)
  end.

(** ** Abbreviations for the statements *)

(** The action of every rendered form. *)
Definition update_url (p : Page) : string :=
  actionPath p +:+ "?/updateRequirementAssessment".

(** The request [update] hands to [fetch] for the record [a]. *)
Definition update_request (p : Page) (a : RequirementAssessment.t)
    (field : string) (value : JSON) : Request :=
  mkRequest (update_url p) "POST"
    (<[field := value]> {["id" := JString (RequirementAssessment.id a)]}).

(** What the removal of the evidence [id] leaves of the record [a]. *)
Definition without_evidence (id : string) (a : RequirementAssessment.t) :
    RequirementAssessment.t :=
  RequirementAssessment.with_evidences
    (filter (λ evidence, Evidence.id evidence ≠ id) (RequirementAssessment.evidences a)) a.

(** ** Example data *)

Definition example_assessment (i status : string) (answer : option Answer.t)
    (evidences : list Evidence.t) : RequirementAssessment.t :=
  RequirementAssessment.mk i i None None None true status "not_assessed"
    answer None None evidences.

Definition example_question (urn : string) (answer : option string) : Question.t :=
  Question.mk urn "" "text" [] answer.

Definition example_page (shallow : bool) (rs : list RequirementAssessment.t) : Page :=
  mkPage (PageData.mk rs rs) shallow "/audit" None 0 [] [].

(** One assessable record, status [to_do], no answer bundle. *)
Definition status_page : Page :=
  example_page false [example_assessment "r1" "to_do" None []].

(** One record whose bundle has two questions of the same urn. *)
Definition twin_questions : Answer.t :=
  Answer.mk [example_question "u" (Some "A"); example_question "u" (Some "B")].

Definition twin_page : Page :=
  example_page false [example_assessment "r1" "to_do" (Some twin_questions) []].

(** One record whose bundle has three questions of distinct urns. *)
Definition three_questions : Answer.t :=
  Answer.mk [example_question "u0" None; example_question "u1" None;
             example_question "u2" (Some "old")].

Definition three_page : Page :=
  example_page false [example_assessment "r1" "to_do" (Some three_questions) []].

(** The merge scenario: a shallow page with the records [r1] and [r2]. *)
Definition merge_page : Page :=
  example_page true [example_assessment "r1" "to_do" None [];
                     example_assessment "r2" "to_do" None []].

Definition policy_pdf : CreatedEvidence.t := CreatedEvidence.mk "e9" "Policy.pdf" ["r2"].
Definition scan_pdf : CreatedEvidence.t := CreatedEvidence.mk "e10" "Scan.pdf" ["r2"].
Definition stray_pdf : CreatedEvidence.t := CreatedEvidence.mk "e9" "Policy.pdf" ["r3"].

(** The removal scenario. *)
Definition removal_page : Page :=
  example_page false
    [example_assessment "r1" "to_do" None [Evidence.mk "one" "e1"; Evidence.mk "two" "e2"];
     example_assessment "r2" "to_do" None [Evidence.mk "one" "e1"]].

(** A record with a pending observation edit. *)
Definition edited_assessment : RequirementAssessment.t :=
  RequirementAssessment.mk "r1" "r1" None None None true "to_do" "not_assessed"
    None (Some "draft") (Some "saved") [].

Definition edited_page : Page := example_page false [edited_assessment].

(** ** The mode selector and the controls of the markup *)

(** The initial value of [questionnaireMode]; [is_third_party] is
    [$page.data.user.is_third_party]. *)
Definition questionnaireMode (questionnaireOnly assessmentOnly is_third_party : bool) : bool :=
  if questionnaireOnly then true
  else if assessmentOnly then false
       else if is_third_party then true else false.

(** The block of the mode switch renders under
    [!(questionnaireOnly ? !assessmentOnly : assessmentOnly)]. *)
Definition mode_switch_renders (questionnaireOnly assessmentOnly : bool) : bool :=
  negb (if questionnaireOnly then negb assessmentOnly else assessmentOnly).

(** The status and result items render inside the form, under
    [!questionnaireMode]. *)
Definition status_controls_render (mode : bool) (a : RequirementAssessment.t) : bool :=
  RequirementAssessment.assessable a && negb mode.

(** The button that opens the evidence creation modal, and the delete
    buttons of the evidences, render inside the form under [!shallow]. *)
Definition evidence_buttons_render (p : Page) (a : RequirementAssessment.t) : bool :=
  RequirementAssessment.assessable a && negb (shallow p).

(** ** Properties of a computation *)

(** The properties of a record no statement of the script assigns. *)
Definition identity (a : RequirementAssessment.t) :
    string * string * option string * option string * option string * bool :=
  (RequirementAssessment.id a, RequirementAssessment.requirement a,
   RequirementAssessment.display_short a, RequirementAssessment.name a,
   RequirementAssessment.description a, RequirementAssessment.assessable a).

(** [p'] has the records of [p], in the same order and with the same
    identity, and the same props. *)
Definition same_records (p p' : Page) : Prop :=
  identity <$> PageData.requirement_assessments (data p')
  = identity <$> PageData.requirement_assessments (data p)
  ∧ identity <$> PageData.requirements (data p')
    = identity <$> PageData.requirements (data p)
  ∧ shallow p' = shallow p
  ∧ actionPath p' = actionPath p.

(** [m] leaves every state in a state related to it by [R], whether it
    returns or throws. *)
Definition preserves {A} (R : Page → Page → Prop) (m : JS A) : Prop :=
  ∀ p, R p (m p).2.

(** [m] hands at most [n] requests to [fetch], after the ones already
    handed over, whether it returns or throws. *)
Definition sends {A} (n : nat) (m : JS A) : Prop :=
  ∀ p, ∃ rs, fetched (m p).2 = (fetched p ++ rs)%list ∧ (length rs ≤ n)%nat.

(** ** More example data *)

(** A record that is not assessable: no form is rendered for it. *)
Definition heading_assessment : RequirementAssessment.t :=
  RequirementAssessment.mk "h1" "h1" None (Some "Chapter 1") None false "to_do"
    "not_assessed" None None None [].

Definition heading_page : Page := example_page false [heading_assessment].

(** Two requirements of the same id and different names. *)
Definition named_requirement (i name : string) : RequirementAssessment.t :=
  RequirementAssessment.mk i i None (Some name) None true "to_do" "not_assessed"
    None None None [].

Definition twin_requirements : PageData.t :=
  PageData.mk [named_requirement "q1" "first"; named_requirement "q1" "second";
               named_requirement "q2" "other"] [].

(** An assessment with a name of its own, linked to a requirement that has
    none. *)
Definition nameless_requirement : RequirementAssessment.t :=
  RequirementAssessment.mk "q9" "q9" None None None true "to_do" "not_assessed"
    None None None [].

Definition named_assessment : RequirementAssessment.t :=
  RequirementAssessment.mk "a9" "q9" (Some "A.9") (Some "Access control") None true
    "to_do" "not_assessed" None None None [].

(** An assessment with a name of its own whose requirement link is the
    key of a property of [Object.prototype], on a page without
    requirements. *)
Definition constructor_assessment : RequirementAssessment.t :=
  RequirementAssessment.mk "a1" "constructor" None (Some "Own name") None true
    "to_do" "not_assessed" None None None [].

Definition constructor_data : PageData.t := PageData.mk [] [constructor_assessment].

(** A creation result without requirement. *)
Definition orphan_pdf : CreatedEvidence.t := CreatedEvidence.mk "e7" "Orphan.pdf" [].

(** ** Running a computation *)

Ltac js_unfold :=
  unfold update, status_click, result_click, question_click, question_change,
    observation_save, observation_cancel, question_at, assign_question_answer,
    merge_createdEvidence, form_changed, modalConfirmDelete,
    requirement_assessment, assign, fetch, defined,
    get, modify, throw, mbind, mret, JS_bind, JS_ret.

Ltac js_run := js_unfold; cbn.

Lemma alter_lookup {A} (f : A → A) (l : list A) (k : nat) (a : A) :
  l !! k = Some a → alter f k l = <[k := f a]> l.
Proof.
  revert k. induction l as [|x l IH]; intros [|k] H; simplify_eq/=; [done|].
  f_equal. by apply IH.
Qed.

(** *** The form of a rendered assessment is found *)

Lemma forms_action p f : f ∈ forms p → action f = update_url p.
Proof.
  unfold forms. intros (a & -> & _)%list_elem_of_fmap. done.
Qed.

Lemma forms_rendered p k a :
  PageData.requirement_assessments (data p) !! k = Some a →
  RequirementAssessment.assessable a = true →
  mkForm ("tableModeForm-" +:+ RequirementAssessment.id a) (update_url p) ∈ forms p.
Proof.
  intros Hk Ha. unfold forms.
  apply list_elem_of_fmap. exists a. split; [done|].
  apply list_elem_of_filter. split; [done|].
  by eapply list_elem_of_lookup_2.
Qed.

Lemma find_form p k a :
  PageData.requirement_assessments (data p) !! k = Some a →
  RequirementAssessment.assessable a = true →
  snd <$> find (λ f, form_id f === "tableModeForm-" +:+ RequirementAssessment.id a) (forms p)
  = Some (mkForm ("tableModeForm-" +:+ RequirementAssessment.id a) (update_url p)).
Proof.
  intros Hk Ha. unfold find.
  destruct (list_find _ (forms p)) as [[i f]|] eqn:Hf.
  - apply list_find_Some in Hf as (Hi & Hid & _).
    apply list_elem_of_lookup_2, forms_action in Hi.
    unfold strict_eq in Hid. apply bool_decide_eq_true in Hid.
    destruct f as [fi fa]. simpl in *. by subst.
  - apply list_find_None in Hf.
    pose proof (forms_rendered p k a Hk Ha) as Hin.
    rewrite Forall_forall in Hf. apply Hf in Hin. simpl in Hin.
    unfold strict_eq in Hin. by rewrite bool_decide_eq_true_2 in Hin.
Qed.

Lemma getElementById_rendered p k a :
  PageData.requirement_assessments (data p) !! k = Some a →
  RequirementAssessment.assessable a = true →
  getElementById ("tableModeForm-" +:+ RequirementAssessment.id a) p
  = (Ok (Some (mkForm ("tableModeForm-" +:+ RequirementAssessment.id a) (update_url p))), p).
Proof.
  intros Hk Ha. unfold getElementById, get, mbind, mret, JS_bind, JS_ret.
  by rewrite (find_form p k a Hk Ha).
Qed.

Ltac js_form k a Hk Ha :=
  match goal with
  | |- context [getElementById ?i ?p] =>
      rewrite (getElementById_rendered p k a Hk Ha : getElementById i p = _)
  end.

Lemma getElementById_reads i p : ∃ f, getElementById i p = (Ok f, p).
Proof. by eexists. Qed.

Arguments getElementById : simpl never.

(** *** [update] without a question *)

Lemma update_plain_run p k a field value :
  PageData.requirement_assessments (data p) !! k = Some a →
  RequirementAssessment.assessable a = true →
  update k field value None p
  = (Ok tt, with_fetched (fetched p ++ [update_request p a field (scalar value)]) p).
Proof.
  intros Hk Ha. js_run. rewrite Hk. cbn.
  by rewrite (getElementById_rendered p k a Hk Ha).
Qed.

(** Whatever its outcome, [update] without a question assigns nothing. *)
Lemma update_plain_data p k field value :
  data (update k field value None p).2 = data p.
Proof.
  js_run. destruct (_ !! k) as [a|]; cbn; [|done].
  destruct (getElementById_reads ("tableModeForm-" +:+ RequirementAssessment.id a) p)
    as [[f|] ->]; done.
Qed.

(** *** [update] with a question *)

Lemma findIndex_first {A} (pred : A → bool) (l : list A) (i : nat) (x : A) :
  l !! i = Some x → pred x = true →
  (∀ j y, l !! j = Some y → (j < i)%nat → pred y ≠ true) →
  findIndex pred l = Z.of_nat i.
Proof.
  intros Hi Hx Hlt. unfold findIndex.
  by rewrite (proj2 (list_find_Some (λ x, pred x = true) l i x)).
Qed.

Lemma findIndex_none {A} (pred : A → bool) (l : list A) :
  (∀ x, x ∈ l → pred x ≠ true) → findIndex pred l = -1.
Proof.
  intros H. unfold findIndex.
  by rewrite (proj2 (list_find_None (λ x, pred x = true) l)); [|apply Forall_forall].
Qed.

Lemma at_index_of_nat {A} (l : list A) (i : nat) : at_index l (Z.of_nat i) = l !! i.
Proof.
  unfold at_index. destruct (decide _); [lia|]. by rewrite Nat2Z.id.
Qed.

Lemma update_question_run p k a b i q value question :
  PageData.requirement_assessments (data p) !! k = Some a →
  RequirementAssessment.assessable a = true →
  RequirementAssessment.answer a = Some b →
  Answer.questions b !! i = Some q →
  Question.urn q = Question.urn question →
  (∀ j q', Answer.questions b !! j = Some q' → (j < i)%nat →
           Question.urn q' ≠ Question.urn question) →
  ∀ field,
  let b' := Answer.mk (<[i := Question.with_answer value q]> (Answer.questions b)) in
  let a' := RequirementAssessment.with_answer (Some b') a in
  update k field value (Some question) p
  = (Ok tt,
     with_fetched (fetched p ++ [update_request p a field (JAnswer b')])
       (with_requirement_assessments
          (<[k := a']> (PageData.requirement_assessments (data p))) p)).
Proof.
  intros Hk Ha Hb Hi Hq Hfirst field b' a'.
  assert (Hidx : findIndex (λ q0, Question.urn q0 === Question.urn question)
                   (Answer.questions b) = Z.of_nat i).
  { apply (findIndex_first _ _ i q); [done| |].
    - unfold strict_eq. by apply bool_decide_eq_true.
    - intros j q' Hj Hlt. unfold strict_eq. rewrite bool_decide_eq_true.
      by eapply Hfirst. }
  js_run. rewrite Hk. cbn. rewrite Hb. cbn.
  rewrite Hidx, at_index_of_nat, Hi, Nat2Z.id. cbn.
  rewrite list_lookup_alter_eq, Hk. cbn.
  rewrite (alter_lookup _ _ k a Hk). fold b'. fold a'.
  set (p1 := with_requirement_assessments _ p).
  assert (Hk1 : PageData.requirement_assessments (data p1) !! k = Some a').
  { subst p1. cbn. apply list_lookup_insert_eq. by eapply lookup_lt_Some. }
  pose proof Hk1 as Hk1'. cbn in Hk1'. rewrite Hk1'. cbn.
  by js_form k a' Hk1 Ha.
Qed.

(** The assignment to the question is made before the form is looked up:
    it is in the record whatever the outcome of [update] is. *)
Lemma update_question_assigns p k a b i q value question field :
  PageData.requirement_assessments (data p) !! k = Some a →
  RequirementAssessment.answer a = Some b →
  Answer.questions b !! i = Some q →
  Question.urn q = Question.urn question →
  (∀ j q', Answer.questions b !! j = Some q' → (j < i)%nat →
           Question.urn q' ≠ Question.urn question) →
  data (update k field value (Some question) p).2
  = PageData.mk (PageData.requirements (data p))
      (<[k := RequirementAssessment.with_answer
                (Some (Answer.mk (<[i := Question.with_answer value q]>
                                    (Answer.questions b)))) a]>
         (PageData.requirement_assessments (data p))).
Proof.
  intros Hk Hb Hi Hq Hfirst.
  assert (Hidx : findIndex (λ q0, Question.urn q0 === Question.urn question)
                   (Answer.questions b) = Z.of_nat i).
  { apply (findIndex_first _ _ i q); [done| |].
    - unfold strict_eq. by apply bool_decide_eq_true.
    - intros j q' Hj Hlt. unfold strict_eq. rewrite bool_decide_eq_true.
      by eapply Hfirst. }
  js_run. rewrite Hk. cbn. rewrite Hb. cbn.
  rewrite Hidx, at_index_of_nat, Hi, Nat2Z.id. cbn.
  rewrite list_lookup_alter_eq, Hk. cbn.
  rewrite (alter_lookup _ _ k a Hk).
  rewrite list_lookup_insert_eq by (by eapply lookup_lt_Some). cbn.
  match goal with
  | |- context [getElementById ?i ?p1] =>
      destruct (getElementById_reads i p1) as [[f|] ->]
  end; done.
Qed.

(** Without a question of that urn, or without an answer bundle, [update]
    throws before any assignment. *)
Lemma update_question_missing p k a b value question field :
  PageData.requirement_assessments (data p) !! k = Some a →
  RequirementAssessment.answer a = Some b →
  (∀ q, q ∈ Answer.questions b → Question.urn q ≠ Question.urn question) →
  update k field value (Some question) p
  = (Throw (TypeError "questions[questionIndex]"), p).
Proof.
  intros Hk Hb Hno. js_run. rewrite Hk. cbn. rewrite Hb. cbn.
  rewrite findIndex_none; [done|].
  intros q Hq. unfold strict_eq. rewrite bool_decide_eq_true. by apply Hno.
Qed.

Arguments update : simpl never.

Ltac js_handler :=
  unfold status_click, result_click, question_click, question_change,
    observation_save, observation_cancel, question_at, assign_question_answer,
    merge_createdEvidence, form_changed, modalConfirmDelete,
    requirement_assessment, assign, defined,
    get, modify, throw, mbind, mret, JS_bind, JS_ret;
  cbn.

(** With a question of that urn in the bundle, [update] returns. *)
Lemma update_question_returns p k a b value question field :
  PageData.requirement_assessments (data p) !! k = Some a →
  RequirementAssessment.assessable a = true →
  RequirementAssessment.answer a = Some b →
  (∃ q, q ∈ Answer.questions b ∧ Question.urn q = Question.urn question) →
  ∃ p', update k field value (Some question) p = (Ok tt, p').
Proof.
  intros Hk Ha Hb (q & Hq & Hurn).
  destruct (list_find_elem_of (λ q, Question.urn q = Question.urn question)
              (Answer.questions b) q Hq Hurn) as [[i q'] Hfind].
  apply list_find_Some in Hfind as (Hi & Hurn' & Hfirst).
  eexists. eapply (update_question_run p k a b i q'); eauto.
Qed.

(** *** The click handlers *)

Lemma status_click_run p k a option_id :
  PageData.requirement_assessments (data p) !! k = Some a →
  RequirementAssessment.assessable a = true →
  let v := newStatus (RequirementAssessment.status a) option_id in
  status_click k option_id p
  = (Ok tt,
     with_fetched (fetched p ++ [update_request p a "status" (JString v)])
       (with_requirement_assessments
          (<[k := RequirementAssessment.with_status v a]>
             (PageData.requirement_assessments (data p))) p)).
Proof.
  intros Hk Ha v. js_handler. rewrite Hk. cbn.
  rewrite (alter_lookup _ _ k a Hk). fold v.
  set (p1 := with_requirement_assessments _ p).
  assert (Hk1 : PageData.requirement_assessments (data p1) !! k
                = Some (RequirementAssessment.with_status v a)).
  { subst p1. cbn. apply list_lookup_insert_eq. by eapply lookup_lt_Some. }
  by rewrite (update_plain_run p1 k _ "status" (Some v) Hk1 Ha).
Qed.

Lemma result_click_run p k a option_id :
  PageData.requirement_assessments (data p) !! k = Some a →
  RequirementAssessment.assessable a = true →
  let v := newResult (RequirementAssessment.result a) option_id in
  result_click k option_id p
  = (Ok tt,
     with_fetched (fetched p ++ [update_request p a "result" (JString v)])
       (with_requirement_assessments
          (<[k := RequirementAssessment.with_result v a]>
             (PageData.requirement_assessments (data p))) p)).
Proof.
  intros Hk Ha v. js_handler. rewrite Hk. cbn.
  rewrite (alter_lookup _ _ k a Hk). fold v.
  set (p1 := with_requirement_assessments _ p).
  assert (Hk1 : PageData.requirement_assessments (data p1) !! k
                = Some (RequirementAssessment.with_result v a)).
  { subst p1. cbn. apply list_lookup_insert_eq. by eapply lookup_lt_Some. }
  by rewrite (update_plain_run p1 k _ "result" (Some v) Hk1 Ha).
Qed.

(** The handlers assign before they call [update]: the new value is in the
    record whatever the outcome of [update] is. *)
Lemma status_click_assigns p k a option_id :
  PageData.requirement_assessments (data p) !! k = Some a →
  PageData.requirement_assessments (data (status_click k option_id p).2)
  = <[k := RequirementAssessment.with_status
             (newStatus (RequirementAssessment.status a) option_id) a]>
      (PageData.requirement_assessments (data p)).
Proof.
  intros Hk. js_handler. rewrite Hk. cbn.
  rewrite (alter_lookup _ _ k a Hk).
  set (p1 := with_requirement_assessments _ p).
  set (v := newStatus _ _).
  pose proof (update_plain_data p1 k "status" (Some v)) as Hd.
  destruct (update k "status" (Some v) None p1) as [[[]|e] p']; cbn in *;
    by rewrite Hd.
Qed.

Lemma result_click_assigns p k a option_id :
  PageData.requirement_assessments (data p) !! k = Some a →
  PageData.requirement_assessments (data (result_click k option_id p).2)
  = <[k := RequirementAssessment.with_result
             (newResult (RequirementAssessment.result a) option_id) a]>
      (PageData.requirement_assessments (data p)).
Proof.
  intros Hk. js_handler. rewrite Hk. cbn.
  rewrite (alter_lookup _ _ k a Hk).
  set (p1 := with_requirement_assessments _ p).
  set (v := newResult _ _).
  pose proof (update_plain_data p1 k "result" (Some v)) as Hd.
  destruct (update k "result" (Some v) None p1) as [[[]|e] p']; cbn in *;
    by rewrite Hd.
Qed.

(** The question handlers pass a question of the record's own bundle to
    [update], which therefore returns. *)
Lemma question_change_returns p k j a b q :
  PageData.requirement_assessments (data p) !! k = Some a →
  RequirementAssessment.assessable a = true →
  RequirementAssessment.answer a = Some b →
  Answer.questions b !! j = Some q →
  ∃ p', question_change k j p = (Ok tt, p').
Proof.
  intros Hk Ha Hb Hj. js_handler. rewrite Hk. cbn. rewrite Hb. cbn.
  rewrite Hj. cbn.
  apply (update_question_returns p k a b _ q "answer" Hk Ha Hb).
  exists q. split; [|done]. by eapply list_elem_of_lookup_2.
Qed.

Lemma question_click_returns p k j a b q choice :
  PageData.requirement_assessments (data p) !! k = Some a →
  RequirementAssessment.assessable a = true →
  RequirementAssessment.answer a = Some b →
  Answer.questions b !! j = Some q →
  ∃ p', question_click k j choice p = (Ok tt, p').
Proof.
  intros Hk Ha Hb Hj. js_handler. rewrite Hk. cbn. rewrite Hb. cbn.
  rewrite Hj. cbn.
  rewrite (alter_lookup _ _ k a Hk). rewrite Hb. cbn.
  rewrite (alter_lookup _ _ j q Hj).
  rewrite list_lookup_insert_eq by (by eapply lookup_lt_Some). cbn.
  rewrite list_lookup_insert_eq by (by eapply lookup_lt_Some). cbn.
  set (v := newAnswer (Question.answer q) choice).
  set (b1 := Answer.mk (<[j := Question.with_answer v q]> (Answer.questions b))).
  set (a1 := RequirementAssessment.with_answer (Some b1) a).
  set (p1 := with_requirement_assessments _ p).
  assert (Hk1 : PageData.requirement_assessments (data p1) !! k = Some a1).
  { subst p1. cbn. apply list_lookup_insert_eq. by eapply lookup_lt_Some. }
  apply (update_question_returns p1 k a1 b1 _ (Question.with_answer v q) "answer"
           Hk1 Ha eq_refl).
  exists (Question.with_answer v q). split; [|done].
  apply (list_elem_of_lookup_2 _ j). subst b1. cbn.
  apply list_lookup_insert_eq. by eapply lookup_lt_Some.
Qed.

(** *** The observation buttons *)

Lemma observation_cancel_run p k a :
  PageData.requirement_assessments (data p) !! k = Some a →
  observation_cancel k p
  = (Ok tt,
     with_requirement_assessments
       (<[k := RequirementAssessment.with_observation
                 (RequirementAssessment.observationBuffer a) a]>
          (PageData.requirement_assessments (data p))) p).
Proof.
  intros Hk. js_handler. rewrite Hk. cbn.
  by rewrite (alter_lookup _ _ k a Hk).
Qed.

Lemma observation_save_run p k a :
  PageData.requirement_assessments (data p) !! k = Some a →
  RequirementAssessment.assessable a = true →
  observation_save k p
  = (Ok tt,
     with_requirement_assessments
       (<[k := RequirementAssessment.with_observationBuffer
                 (RequirementAssessment.observation a) a]>
          (PageData.requirement_assessments (data p)))
       (with_fetched
          (fetched p ++ [update_request p a "observation"
                           (scalar (RequirementAssessment.observation a))]) p)).
Proof.
  intros Hk Ha. js_handler. rewrite Hk. cbn.
  rewrite (update_plain_run p k a "observation" _ Hk Ha). cbn.
  rewrite Hk. cbn. by rewrite (alter_lookup _ _ k a Hk).
Qed.

(** *** The evidence merge *)

Lemma merge_found p created i a :
  createdEvidence p = Some created →
  shallow p = true →
  find (λ requirementAssessment,
          Some (RequirementAssessment.id requirementAssessment)
          === head (CreatedEvidence.requirements created))
       (PageData.requirements (data p)) = Some (i, a) →
  merge_createdEvidence p
  = (Ok tt,
     with_addedEvidence 1
       (with_createdEvidence None
          (with_requirements
             (<[i := RequirementAssessment.with_evidences
                       (RequirementAssessment.evidences a
                        ++ [Evidence.mk (CreatedEvidence.name created)
                                        (CreatedEvidence.id created)]) a]>
                (PageData.requirements (data p))) p))).
Proof.
  intros Hc Hs Hf. js_handler. rewrite Hc, Hs, Hf. cbn.
  apply list_find_Some in Hf as (Hi & _).
  by rewrite (alter_lookup _ _ i a Hi).
Qed.

Lemma merge_missing p created :
  createdEvidence p = Some created →
  shallow p = true →
  (∀ a, a ∈ PageData.requirements (data p) →
        Some (RequirementAssessment.id a) ≠ head (CreatedEvidence.requirements created)) →
  merge_createdEvidence p = (Throw (TypeError "find(...)"), p).
Proof.
  intros Hc Hs Hno. js_handler. rewrite Hc, Hs.
  unfold find.
  rewrite (proj2 (list_find_None _ _)); [done|].
  apply Forall_forall. intros a Ha. unfold strict_eq.
  rewrite bool_decide_eq_true. by apply Hno.
Qed.

Lemma merge_skipped p :
  createdEvidence p = None ∨ shallow p = false →
  merge_createdEvidence p = (Ok tt, p).
Proof.
  intros H. js_handler. destruct (createdEvidence p); [|done].
  destruct H as [?| ->]; done.
Qed.

Lemma form_changed_found p created i a :
  shallow p = true →
  find (λ requirementAssessment,
          Some (RequirementAssessment.id requirementAssessment)
          === head (CreatedEvidence.requirements created))
       (PageData.requirements (data p)) = Some (i, a) →
  form_changed (Some created) p
  = (Ok tt,
     with_addedEvidence 1
       (with_createdEvidence None
          (with_requirements
             (<[i := RequirementAssessment.with_evidences
                       (RequirementAssessment.evidences a
                        ++ [Evidence.mk (CreatedEvidence.name created)
                                        (CreatedEvidence.id created)]) a]>
                (PageData.requirements (data p))) p))).
Proof.
  intros Hs Hf. unfold form_changed, modify, mbind, JS_bind. cbn.
  by rewrite (merge_found (with_createdEvidence (Some created) p) created i a).
Qed.

Lemma form_changed_missing p created :
  shallow p = true →
  (∀ a, a ∈ PageData.requirements (data p) →
        Some (RequirementAssessment.id a) ≠ head (CreatedEvidence.requirements created)) →
  form_changed (Some created) p
  = (Throw (TypeError "find(...)"), with_createdEvidence (Some created) p).
Proof.
  intros Hs Hno. unfold form_changed, modify, mbind, JS_bind. cbn.
  by rewrite (merge_missing (with_createdEvidence (Some created) p) created).
Qed.

(** *** The evidence removal *)

Lemma modalConfirmDelete_run id name p :
  modalConfirmDelete id name p
  = (Ok tt,
     with_requirements (without_evidence id <$> PageData.requirements (data p))
       (with_modals (modals p ++ [mkModal "/evidences?/delete" id name]) p)).
Proof. done. Qed.

(** *** The record index *)

Lemma fromEntries_snoc {V} (l : list (string * V)) (e : string * V) :
  fromEntries (l ++ [e]) = <[e.1 := e.2]> (fromEntries l).
Proof. unfold fromEntries. by rewrite foldl_snoc. Qed.

Lemma fromEntries_lookup_None {V} (l : list (string * V)) (key : string) :
  fromEntries l !! key = None ↔ ∀ e, e ∈ l → e.1 ≠ key.
Proof.
  induction l as [|e l IH] using rev_ind.
  - split; [intros _ e He; by apply elem_of_nil in He | done].
  - rewrite fromEntries_snoc. rewrite lookup_insert_None, IH. split.
    + intros [Hl He] e' [Hin | ->%list_elem_of_singleton]%elem_of_app; auto.
    + intros H. split.
      * intros e' Hin. apply H, elem_of_app. by left.
      * apply H, elem_of_app. right. by apply list_elem_of_singleton.
Qed.

Lemma fromEntries_lookup_Some {V} (l : list (string * V)) (key : string) (v : V) :
  fromEntries l !! key = Some v → (key, v) ∈ l.
Proof.
  induction l as [|e l IH] using rev_ind; [done|].
  rewrite fromEntries_snoc. destruct e as [key' v'].
  intros [[<- <-] | [_ H]]%lookup_insert_Some; apply elem_of_app.
  - right. by apply list_elem_of_singleton.
  - left. by apply IH.
Qed.

(** The last entry of a key is the one the index keeps. *)
Lemma fromEntries_lookup_last {V} (l1 l2 : list (string * V)) (key : string) (v : V) :
  (∀ e, e ∈ l2 → e.1 ≠ key) →
  fromEntries (l1 ++ (key, v) :: l2) !! key = Some v.
Proof.
  induction l2 as [|e l2 IH] using rev_ind; intros Hl2.
  - rewrite fromEntries_snoc. by rewrite lookup_insert_eq.
  - rewrite app_comm_cons, app_assoc, fromEntries_snoc.
    rewrite lookup_insert_ne.
    + apply IH. intros e' He'. apply Hl2, elem_of_app. by left.
    + apply Hl2, elem_of_app. right. by apply list_elem_of_singleton.
Qed.

Lemma requirementHashmap_Some d key r :
  requirementHashmap d !! key = Some r →
  r ∈ PageData.requirements d ∧ RequirementAssessment.id r = key.
Proof.
  intros H%fromEntries_lookup_Some.
  apply list_elem_of_fmap in H as (r' & [= -> ->] & Hin). done.
Qed.

Lemma requirementHashmap_None d key :
  requirementHashmap d !! key = None ↔
  ∀ r, r ∈ PageData.requirements d → RequirementAssessment.id r ≠ key.
Proof.
  unfold requirementHashmap. rewrite fromEntries_lookup_None. split.
  - intros H r Hr. apply (H (RequirementAssessment.id r, r)).
    apply list_elem_of_fmap. by exists r.
  - intros H e (r & -> & Hr)%list_elem_of_fmap. by apply H.
Qed.

Lemma title_of_names (source : RequirementAssessment.t) :
  (if truthy (RequirementAssessment.display_short source)
   then default "" (RequirementAssessment.display_short source)
   else match RequirementAssessment.name source with
        | Some name => name
        | None => ""
        end) = title_of source.
Proof.
  unfold title_of, truthy, strict_eq.
  destruct (RequirementAssessment.display_short source) as [s|],
           (RequirementAssessment.name source) as [n|]; cbn; try done.
  all: destruct (decide (s = "")) as [->|Hs]; cbn; try done.
  all: by rewrite bool_decide_eq_false_2.
Qed.

Lemma title_title_of idx a :
  title idx a
  = match idx !! RequirementAssessment.requirement a with
    | Some r => title_of r
    | None =>
        match Object_prototype (RequirementAssessment.requirement a) with
        | Some (InheritedFunction name) => name
        | Some InheritedPrototype => ""
        | None => title_of a
        end
    end.
Proof.
  unfold title, property_of.
  destruct (idx !! RequirementAssessment.requirement a) as [r|]; cbn.
  - apply title_of_names.
  - destruct (Object_prototype _) as [[name|]|]; cbn; [done..|].
    apply title_of_names.
Qed.

(** No key of [Object.prototype] has the length of a uuid. *)
Lemma Object_prototype_uuid (key : string) :
  String.length key = 36%nat → Object_prototype key = None.
Proof.
  intros Hlen. unfold Object_prototype.
  repeat case_decide; try done; subst; try discriminate.
  exfalso.
  repeat match goal with
         | H : _ ∈ _ :: _ |- _ => apply elem_of_cons in H as [->|H]; [discriminate|]
         end.
  by match goal with H : _ ∈ [] |- _ => apply elem_of_nil in H end.
Qed.

(** ** The claims *)

(** C1, as stated, fails: [update(a, 'status', 'done')] without a question
    returns and [a.status] is still ['to_do']. *)
Lemma update_leaves_status :
  update 0 "status" (Some "done") None status_page
  = (Ok tt,
     with_fetched
       [mkRequest "/audit?/updateRequirementAssessment" "POST"
          (<["status" := JString "done"]> {["id" := JString "r1"]})]
       status_page)
  ∧ RequirementAssessment.status
      <$> PageData.requirement_assessments
            (data (update 0 "status" (Some "done") None status_page).2) !! 0%nat
    = Some "to_do".
Proof. split; reflexivity. Qed.

(** C1, amended.  Without a question, [update] assigns nothing: whatever
    its outcome the records are the ones it was called with, and for a
    record whose form is rendered it returns after handing
    [{ id, [field]: value }] to [fetch].  The assignment of the new value is
    made by the caller, before the call: after a click on a status or
    result item the record holds the new value whatever the outcome of
    [update], and the request carries that value; the save button of the
    observation posts the observation the text area binding has stored. *)
Theorem update_assigns_nothing p k a field value :
  PageData.requirement_assessments (data p) !! k = Some a →
  data (update k field value None p).2 = data p
  ∧ (RequirementAssessment.assessable a = true →
     update k field value None p
     = (Ok tt, with_fetched (fetched p ++ [update_request p a field (scalar value)]) p))
  ∧ (∀ option_id,
       let v := newStatus (RequirementAssessment.status a) option_id in
       PageData.requirement_assessments (data (status_click k option_id p).2) !! k
       = Some (RequirementAssessment.with_status v a)
       ∧ (RequirementAssessment.assessable a = true →
          (status_click k option_id p).1 = Ok tt
          ∧ fetched (status_click k option_id p).2
            = (fetched p ++ [update_request p a "status" (JString v)])%list))
  ∧ (∀ option_id,
       let v := newResult (RequirementAssessment.result a) option_id in
       PageData.requirement_assessments (data (result_click k option_id p).2) !! k
       = Some (RequirementAssessment.with_result v a)
       ∧ (RequirementAssessment.assessable a = true →
          (result_click k option_id p).1 = Ok tt
          ∧ fetched (result_click k option_id p).2
            = (fetched p ++ [update_request p a "result" (JString v)])%list))
  ∧ (RequirementAssessment.assessable a = true →
     (observation_save k p).1 = Ok tt
     ∧ fetched (observation_save k p).2
       = (fetched p ++ [update_request p a "observation"
                          (scalar (RequirementAssessment.observation a))])%list).
Proof.
  intros Hk. pose proof (lookup_lt_Some _ _ _ Hk) as Hlt.
  split_and!.
  - apply update_plain_data.
  - intros Ha. by apply update_plain_run.
  - intros option_id v. split.
    + rewrite (status_click_assigns p k a option_id Hk).
      by apply list_lookup_insert_eq.
    + intros Ha. by rewrite (status_click_run p k a option_id Hk Ha).
  - intros option_id v. split.
    + rewrite (result_click_assigns p k a option_id Hk).
      by apply list_lookup_insert_eq.
    + intros Ha. by rewrite (result_click_run p k a option_id Hk Ha).
  - intros Ha. by rewrite (observation_save_run p k a Hk Ha).
Qed.

Lemma update_assigns_nothing_done :
  data (update 0 "status" (Some "done") None status_page).2 = data status_page
  ∧ PageData.requirement_assessments (data (status_click 0 "done" status_page).2) !! 0%nat
    = Some (example_assessment "r1" "done" None []).
Proof.
  pose proof (update_assigns_nothing status_page 0
                (example_assessment "r1" "to_do" None []) "status" (Some "done")
                eq_refl) as (Hd & _ & Hs & _).
  split; [exact Hd | exact (proj1 (Hs "done"))].
Defined.

(** C7, as stated, fails: the bundle has a question at index 1 whose urn
    is that of the question given to [update], and the call changes the
    answer at index 0 and leaves index 1 as it was, because [findIndex]
    stops at the first question of that urn. *)
Lemma update_question_twin_urn :
  Answer.questions twin_questions !! 1%nat = Some (example_question "u" (Some "B"))
  ∧ (RequirementAssessment.answer
       <$> PageData.requirement_assessments
             (data (update 0 "answer" (Some "X")
                      (Some (example_question "u" (Some "B"))) twin_page).2) !! 0%nat)
    = Some (Some (Answer.mk [example_question "u" (Some "X");
                             example_question "u" (Some "B")])).
Proof. split; reflexivity. Qed.

(** The same page under a click: the handler assigns to the question that
    was clicked, at index 1, and [update] then assigns to index 0. *)
Example question_click_twin_urn :
  (RequirementAssessment.answer
     <$> PageData.requirement_assessments
           (data (question_click 0 1 "C" twin_page).2) !! 0%nat)
  = Some (Some (Answer.mk [example_question "u" (Some "C");
                           example_question "u" (Some "C")])).
Proof. reflexivity. Qed.

(** C7, amended.  When [i] is the first index of the answer bundle whose
    question has the urn of [question], [update(a, 'answer', value,
    question)] sets the answer of the question at [i] to [value] and leaves
    the other questions and the other properties of the record as they
    were; for a record whose form is rendered it then returns after posting
    a body whose ['answer'] entry is the whole bundle after that
    assignment, not the scalar. *)
Theorem update_question_first_index p k a b i q value question :
  PageData.requirement_assessments (data p) !! k = Some a →
  RequirementAssessment.answer a = Some b →
  Answer.questions b !! i = Some q →
  Question.urn q = Question.urn question →
  (∀ j q', Answer.questions b !! j = Some q' → (j < i)%nat →
           Question.urn q' ≠ Question.urn question) →
  ∃ b',
    PageData.requirement_assessments
      (data (update k "answer" value (Some question) p).2) !! k
    = Some (RequirementAssessment.with_answer (Some b') a)
    ∧ Answer.questions b' !! i = Some (Question.with_answer value q)
    ∧ (∀ j, j ≠ i → Answer.questions b' !! j = Answer.questions b !! j)
    ∧ length (Answer.questions b') = length (Answer.questions b)
    ∧ (RequirementAssessment.assessable a = true →
       (update k "answer" value (Some question) p).1 = Ok tt
       ∧ ∃ r, fetched (update k "answer" value (Some question) p).2
              = (fetched p ++ [r])%list
              ∧ url r = actionPath p +:+ "?/updateRequirementAssessment"
              ∧ method r = "POST"
              ∧ body r !! "answer" = Some (JAnswer b')
              ∧ body r !! "id" = Some (JString (RequirementAssessment.id a))).
Proof.
  intros Hk Hb Hi Hq Hfirst.
  exists (Answer.mk (<[i := Question.with_answer value q]> (Answer.questions b))).
  rewrite (update_question_assigns p k a b i q value question "answer"
             Hk Hb Hi Hq Hfirst).
  cbn. split_and!.
  - apply list_lookup_insert_eq. by eapply lookup_lt_Some.
  - apply list_lookup_insert_eq. by eapply lookup_lt_Some.
  - intros j Hj. by apply list_lookup_insert_ne.
  - apply length_insert.
  - intros Ha.
    rewrite (update_question_run p k a b i q value question
               Hk Ha Hb Hi Hq Hfirst "answer").
    cbn. split; [done|]. eexists. split; [done|]. cbn.
    rewrite lookup_insert_eq, lookup_insert_ne by done.
    by rewrite lookup_singleton_eq.
Qed.

Lemma update_question_third :
  ∃ b',
    PageData.requirement_assessments
      (data (update 0 "answer" (Some "X")
               (Some (example_question "u2" (Some "old"))) three_page).2) !! 0%nat
    = Some (example_assessment "r1" "to_do" (Some b') [])
    ∧ Answer.questions b'
      = [example_question "u0" None; example_question "u1" None;
         example_question "u2" (Some "X")].
Proof.
  destruct (update_question_first_index three_page 0
              (example_assessment "r1" "to_do" (Some three_questions) [])
              three_questions 2 (example_question "u2" (Some "old")) (Some "X")
              (example_question "u2" (Some "old")))
    as (b' & Hrun & H2 & Hother & Hlen & _).
  - reflexivity.
  - reflexivity.
  - reflexivity.
  - reflexivity.
  - intros [|[|j]] q'; cbn; intros Hj Hlt; [| |lia]; by inversion Hj.
  - exists b'. split; [exact Hrun|].
    pose proof (Hother 0%nat ltac:(lia)) as H0.
    pose proof (Hother 1%nat ltac:(lia)) as H1.
    destruct b' as [[|q0 [|q1 [|q2 [|q3 qs]]]]]; cbn in *; try discriminate.
    by simplify_eq.
Defined.

(** C3, as stated, fails twice.  A click on the default item while another
    item is selected returns the default value although the clicked item is
    not the current one; and a second click on the item that was selected
    before the first click selects it again. *)
Lemma newStatus_default_item :
  ¬ (newStatus "done" "to_do" = "to_do" ↔ "to_do" = "done")
  ∧ newStatus (newStatus "done" "done") "done" = "done"
  ∧ "done" ≠ "to_do".
Proof.
  split_and!; [|reflexivity|discriminate].
  intros [H _]. discriminate (H eq_refl).
Qed.

(** C3, amended.  The three click handlers compute their new value with the
    same reducer, [nextValue], with the defaults ['to_do'], ['not_assessed']
    and [null]; it is a function of its three arguments.  It returns the
    default value if the clicked value is the current one and the clicked
    value otherwise, so its result is the default value exactly when the
    clicked value is the current one or is the default value itself.  A
    second click on the same value gives the default value when the value
    was not selected before the first click or is the default value; when
    it was selected and is not the default value, the second click selects
    it again. *)
Theorem nextValue_toggle :
  (∀ current option_id, newStatus current option_id = nextValue current option_id "to_do")
  ∧ (∀ current option_id,
       newResult current option_id = nextValue current option_id "not_assessed")
  ∧ (∀ current choice, newAnswer current choice = nextValue current (Some choice) None)
  ∧ ∀ `{EqDecision A} (current clicked defaultValue : A),
      (clicked = current → nextValue current clicked defaultValue = defaultValue)
      ∧ (clicked ≠ current → nextValue current clicked defaultValue = clicked)
      ∧ (nextValue current clicked defaultValue = defaultValue
         ↔ clicked = current ∨ clicked = defaultValue)
      ∧ (clicked ≠ current ∨ clicked = defaultValue →
         nextValue (nextValue current clicked defaultValue) clicked defaultValue
         = defaultValue)
      ∧ (clicked = current → clicked ≠ defaultValue →
         nextValue (nextValue current clicked defaultValue) clicked defaultValue
         = clicked).
Proof.
  split_and!.
  - intros current option_id. unfold newStatus, nextValue, strict_eq.
    repeat case_bool_decide; congruence.
  - intros current option_id. unfold newResult, nextValue, strict_eq.
    repeat case_bool_decide; congruence.
  - intros current choice. unfold newAnswer, nextValue, strict_eq.
    repeat case_bool_decide; congruence.
  - intros A HA current clicked defaultValue. unfold nextValue.
    split_and!; repeat case_bool_decide; subst; intuition congruence.
Qed.

(** C2, on the code.  When a creation event arrives on a shallow page and
    [a] at index [i] is the first record of [data.requirements] whose id is
    the first requirement of the event, the merge returns, appends
    [{ str: name, id }] to the evidences of that record, leaves the other
    records alone and clears the pending slot; but [addedEvidence = +1]
    stores the number one whatever the counter was.  Two events in a row
    for [r2] on the page with the records [r1] and [r2]: the counter is 1
    after the first merge and still 1 after the second. *)
Theorem addedEvidence_after_two_merges :
  (∀ p created i a,
     shallow p = true →
     find (λ requirementAssessment,
             Some (RequirementAssessment.id requirementAssessment)
             === head (CreatedEvidence.requirements created))
          (PageData.requirements (data p)) = Some (i, a) →
     (form_changed (Some created) p).1 = Ok tt
     ∧ PageData.requirements (data (form_changed (Some created) p).2) !! i
       = Some (RequirementAssessment.with_evidences
                 (RequirementAssessment.evidences a
                  ++ [Evidence.mk (CreatedEvidence.name created)
                                  (CreatedEvidence.id created)]) a)
     ∧ (∀ j, j ≠ i →
             PageData.requirements (data (form_changed (Some created) p).2) !! j
             = PageData.requirements (data p) !! j)
     ∧ createdEvidence (form_changed (Some created) p).2 = None
     ∧ addedEvidence (form_changed (Some created) p).2 = 1)
  ∧ (form_changed (Some policy_pdf) merge_page).1 = Ok tt
  ∧ (form_changed (Some scan_pdf) (form_changed (Some policy_pdf) merge_page).2).1 = Ok tt
  ∧ RequirementAssessment.evidences
      <$> PageData.requirements (data (form_changed (Some policy_pdf) merge_page).2)
    = [[]; [Evidence.mk "Policy.pdf" "e9"]]
  ∧ addedEvidence (form_changed (Some policy_pdf) merge_page).2 = 1
  ∧ RequirementAssessment.evidences
      <$> PageData.requirements
            (data (form_changed (Some scan_pdf)
                     (form_changed (Some policy_pdf) merge_page).2).2)
    = [[]; [Evidence.mk "Policy.pdf" "e9"; Evidence.mk "Scan.pdf" "e10"]]
  ∧ addedEvidence
      (form_changed (Some scan_pdf) (form_changed (Some policy_pdf) merge_page).2).2
    = 1.
Proof.
  split; [|split_and!; reflexivity].
  intros p created i a Hs Hf.
  rewrite (form_changed_found p created i a Hs Hf). cbn.
  apply list_find_Some in Hf as (Hi & _).
  split_and!; try done.
  - apply list_lookup_insert_eq. by eapply lookup_lt_Some.
  - intros j Hj. by apply list_lookup_insert_ne.
Qed.

(** C4, on the code.  When a creation event arrives on a shallow page and
    no record of [data.requirements] has the id of its first requirement,
    [find] returns [undefined] and reading its [evidences] throws a
    [TypeError]: the records and the counter are as before, and the
    statement that clears the pending slot is not reached.  So it is for an
    event for [r3] on the page with the records [r1] and [r2]. *)
Theorem merge_miss_throws :
  (∀ p created,
     shallow p = true →
     (∀ a, a ∈ PageData.requirements (data p) →
           Some (RequirementAssessment.id a)
           ≠ head (CreatedEvidence.requirements created)) →
     (form_changed (Some created) p).1 = Throw (TypeError "find(...)")
     ∧ data (form_changed (Some created) p).2 = data p
     ∧ addedEvidence (form_changed (Some created) p).2 = addedEvidence p
     ∧ createdEvidence (form_changed (Some created) p).2 = Some created)
  ∧ form_changed (Some stray_pdf) merge_page
    = (Throw (TypeError "find(...)"), with_createdEvidence (Some stray_pdf) merge_page).
Proof.
  split; [|reflexivity].
  intros p created Hs Hno.
  by rewrite (form_changed_missing p created Hs Hno).
Qed.

(** C5, on the code.  Title derivation is a function to strings and
    evidence removal returns on every input.  [update] returns for a record
    whose form is rendered, without a question and with a question whose
    urn is in the bundle, which is what the question handlers of the markup
    pass; it throws when no question of the bundle has the urn.  The evidence merge returns when there is nothing to merge or a
    record matches, and throws when no record of [data.requirements]
    matches, as on the shallow page with the records [r1] and [r2] for an
    event whose first requirement is [r3]. *)
Theorem state_sync_outcomes :
  (∀ id name p, ∃ p', modalConfirmDelete id name p = (Ok tt, p'))
  ∧ (∀ p k a field value,
       PageData.requirement_assessments (data p) !! k = Some a →
       RequirementAssessment.assessable a = true →
       ∃ p', update k field value None p = (Ok tt, p'))
  ∧ (∀ p k a b field value question,
       PageData.requirement_assessments (data p) !! k = Some a →
       RequirementAssessment.assessable a = true →
       RequirementAssessment.answer a = Some b →
       (∃ q, q ∈ Answer.questions b ∧ Question.urn q = Question.urn question) →
       ∃ p', update k field value (Some question) p = (Ok tt, p'))
  ∧ (∀ p k a b field value question,
       PageData.requirement_assessments (data p) !! k = Some a →
       RequirementAssessment.answer a = Some b →
       (∀ q, q ∈ Answer.questions b → Question.urn q ≠ Question.urn question) →
       update k field value (Some question) p
       = (Throw (TypeError "questions[questionIndex]"), p))
  ∧ (∀ p k j a b q choice,
       PageData.requirement_assessments (data p) !! k = Some a →
       RequirementAssessment.assessable a = true →
       RequirementAssessment.answer a = Some b →
       Answer.questions b !! j = Some q →
       (∃ p', question_click k j choice p = (Ok tt, p'))
       ∧ (∃ p', question_change k j p = (Ok tt, p')))
  ∧ (∀ p, createdEvidence p = None ∨ shallow p = false →
          merge_createdEvidence p = (Ok tt, p))
  ∧ (∀ p created a,
       createdEvidence p = Some created → shallow p = true →
       a ∈ PageData.requirements (data p) →
       Some (RequirementAssessment.id a) = head (CreatedEvidence.requirements created) →
       ∃ p', merge_createdEvidence p = (Ok tt, p'))
  ∧ (∀ p created,
       createdEvidence p = Some created → shallow p = true →
       (∀ a, a ∈ PageData.requirements (data p) →
             Some (RequirementAssessment.id a)
             ≠ head (CreatedEvidence.requirements created)) →
       merge_createdEvidence p = (Throw (TypeError "find(...)"), p))
  ∧ (form_changed (Some stray_pdf) merge_page).1 = Throw (TypeError "find(...)").
Proof.
  split_and!.
  - intros id name p. eexists. apply modalConfirmDelete_run.
  - intros p k a field value Hk Ha. eexists. by apply update_plain_run.
  - intros p k a b field value question Hk Ha Hb Hq.
    by eapply update_question_returns.
  - intros p k a b field value question Hk Hb Hno.
    by eapply update_question_missing.
  - intros p k j a b q choice Hk Ha Hb Hj. split.
    + by eapply question_click_returns.
    + by eapply question_change_returns.
  - apply merge_skipped.
  - intros p created a Hc Hs Ha Hid.
    destruct (list_find_elem_of
                (λ r, (Some (RequirementAssessment.id r)
                       === head (CreatedEvidence.requirements created)) = true)
                (PageData.requirements (data p)) a Ha) as [[i r] Hf].
    { unfold strict_eq. by apply bool_decide_eq_true. }
    eexists. by apply (merge_found p created i r).
  - apply merge_missing.
  - reflexivity.
Qed.

(** C6, on the code.  [modalConfirmDelete] walks [data.requirements] and
    never assigns to a record of [data.requirement_assessments], the
    collection whose records the page renders with their evidences and
    delete buttons.  On the page of the removal scenario, after the click
    on the delete button of [e1], the rendered assessment [r1] still holds
    [e1] and [e2] and [r2] still holds [e1]; only the records of
    [data.requirements] have lost it. *)
Theorem modalConfirmDelete_leaves_assessments :
  (∀ id name p,
     PageData.requirement_assessments (data (modalConfirmDelete id name p).2)
     = PageData.requirement_assessments (data p))
  ∧ RequirementAssessment.evidences
      <$> PageData.requirement_assessments
            (data (modalConfirmDelete "e1" "one" removal_page).2)
    = [[Evidence.mk "one" "e1"; Evidence.mk "two" "e2"]; [Evidence.mk "one" "e1"]]
  ∧ RequirementAssessment.evidences
      <$> PageData.requirements (data (modalConfirmDelete "e1" "one" removal_page).2)
    = [[Evidence.mk "two" "e2"]; []].
Proof.
  split_and!; [|reflexivity..].
  intros id name p. by rewrite modalConfirmDelete_run.
Qed.


(** C8, as stated, fails: the requirement link ['constructor'] of the
    assessment resolves to no requirement of the index, and the title is
    not derived from the assessment itself, which would give its name, but
    from the function [Object] that the index object inherits. *)
Lemma title_constructor :
  requirementHashmap constructor_data !! "constructor" = None
  ∧ title (requirementHashmap constructor_data) constructor_assessment = "Object"
  ∧ title_of constructor_assessment = "Own name".
Proof. split_and!; reflexivity. Qed.

(** C8, amended.  [title] is a function to strings, so it returns on every
    record.  When the [requirement] identifier of the record resolves in
    the index, or is not the key of a property of [Object.prototype], the
    source of the title is the requirement the index holds for that
    identifier, which is a requirement of the page data with that id, and
    the record itself when no requirement of the page data has that id;
    the title is the short display name of the source when that is set
    (present and not empty), else its long name when that is set, else the
    empty string.  When no requirement has the identifier as id and the
    identifier is the key of a property of [Object.prototype], the title is
    the name of the inherited function, ['Object'] for ['constructor'], and
    the empty string for ['__proto__'].  No identifier of the length of a
    uuid is such a key. *)
Theorem title_derivation d a :
  (is_Some (requirementHashmap d !! RequirementAssessment.requirement a)
   ∨ Object_prototype (RequirementAssessment.requirement a) = None →
   ∃ source,
     title (requirementHashmap d) a = title_of source
     ∧ ((source ∈ PageData.requirements d
         ∧ RequirementAssessment.id source = RequirementAssessment.requirement a
         ∧ requirementHashmap d !! RequirementAssessment.requirement a = Some source)
        ∨ (source = a
           ∧ ∀ r, r ∈ PageData.requirements d →
                  RequirementAssessment.id r ≠ RequirementAssessment.requirement a))
     ∧ (∀ short, RequirementAssessment.display_short source = Some short →
                 short ≠ "" → title (requirementHashmap d) a = short)
     ∧ (∀ long, truthy (RequirementAssessment.display_short source) = false →
                RequirementAssessment.name source = Some long →
                title (requirementHashmap d) a = long)
     ∧ (truthy (RequirementAssessment.display_short source) = false →
        RequirementAssessment.name source = None →
        title (requirementHashmap d) a = ""))
  ∧ ((∀ r, r ∈ PageData.requirements d →
           RequirementAssessment.id r ≠ RequirementAssessment.requirement a) →
     (∀ name, Object_prototype (RequirementAssessment.requirement a)
              = Some (InheritedFunction name) →
              title (requirementHashmap d) a = name)
     ∧ (Object_prototype (RequirementAssessment.requirement a) = Some InheritedPrototype →
        title (requirementHashmap d) a = ""))
  ∧ (String.length (RequirementAssessment.requirement a) = 36%nat →
     Object_prototype (RequirementAssessment.requirement a) = None)
  ∧ Object_prototype "constructor" = Some (InheritedFunction "Object")
  ∧ Object_prototype "__proto__" = Some InheritedPrototype.
Proof.
  split_and!; [| |apply Object_prototype_uuid|done..].
  - intros Hres.
    exists (default a (requirementHashmap d !! RequirementAssessment.requirement a)).
    assert (Ht : title (requirementHashmap d) a
                 = title_of (default a (requirementHashmap d
                                          !! RequirementAssessment.requirement a))).
    { rewrite title_title_of.
      destruct (requirementHashmap d !! _) as [r|]; cbn; [done|].
      destruct Hres as [[? [=]]| ->]. done. }
    rewrite Ht. set (source := default a _). split; [done|]. split.
    + subst source.
      destruct (requirementHashmap d !! _) as [r|] eqn:Hr; cbn.
      * left. by apply requirementHashmap_Some in Hr as [? ?].
      * right. split; [done|]. by apply requirementHashmap_None.
    + unfold title_of, truthy, strict_eq. split_and!.
      * intros short -> Hne. by destruct (decide (short = "")).
      * intros long Hs ->.
        destruct (RequirementAssessment.display_short source) as [s|]; [|done].
        destruct (decide (s = "")); [done|].
        by rewrite bool_decide_eq_false_2 in Hs.
      * intros Hs ->.
        destruct (RequirementAssessment.display_short source) as [s|]; [|done].
        destruct (decide (s = "")); [done|].
        by rewrite bool_decide_eq_false_2 in Hs.
  - intros Hnone%requirementHashmap_None. rewrite title_title_of, Hnone. split.
    + by intros name ->.
    + by intros ->.
Qed.

(** C9.  For a record of the page, the cancel button returns and leaves
    [observationBuffer] equal to [observation]; the save button, which is
    rendered inside the record's form, posts the observation, copies it
    into [observationBuffer] and leaves the two equal.  The two buttons
    render exactly when the observation text area renders and the two
    properties differ: no other state of the record shows them, and after
    either button they are gone. *)
Theorem observation_buffer_sync p k a :
  PageData.requirement_assessments (data p) !! k = Some a →
  (∃ a', observation_cancel k p
         = (Ok tt, with_requirement_assessments
                     (<[k := a']> (PageData.requirement_assessments (data p))) p)
         ∧ PageData.requirement_assessments (data (observation_cancel k p).2) !! k
           = Some a'
         ∧ RequirementAssessment.observationBuffer a' = RequirementAssessment.observation a'
         ∧ RequirementAssessment.observation a' = RequirementAssessment.observationBuffer a
         ∧ observation_buttons_render p a' = false)
  ∧ (observation_buttons_render p a = true →
     ∃ a', (observation_save k p).1 = Ok tt
           ∧ PageData.requirement_assessments (data (observation_save k p).2) !! k
             = Some a'
           ∧ fetched (observation_save k p).2
             = (fetched p ++ [update_request p a "observation"
                                (scalar (RequirementAssessment.observation a))])%list
           ∧ RequirementAssessment.observationBuffer a' = RequirementAssessment.observation a'
           ∧ RequirementAssessment.observation a' = RequirementAssessment.observation a
           ∧ observation_buttons_render p a' = false)
  ∧ (observation_buttons_render p a = true
     ↔ observation_editor_renders p a = true
       ∧ RequirementAssessment.observationBuffer a ≠ RequirementAssessment.observation a)
  ∧ (RequirementAssessment.observationBuffer a = RequirementAssessment.observation a →
     observation_buttons_render p a = false).
Proof.
  intros Hk. pose proof (lookup_lt_Some _ _ _ Hk) as Hlt.
  unfold observation_buttons_render, observation_editor_renders, strict_eq.
  split_and!.
  - exists (RequirementAssessment.with_observation
              (RequirementAssessment.observationBuffer a) a).
    rewrite (observation_cancel_run p k a Hk). cbn. split_and!; try done.
    + by apply list_lookup_insert_eq.
    + rewrite bool_decide_eq_true_2 by done. by rewrite andb_false_r.
  - intros Hr. apply andb_true_iff in Hr as [Hr _].
    apply andb_true_iff in Hr as [Ha _].
    exists (RequirementAssessment.with_observationBuffer
              (RequirementAssessment.observation a) a).
    rewrite (observation_save_run p k a Hk Ha). cbn.
    split_and!; try done.
    + by apply list_lookup_insert_eq.
    + rewrite bool_decide_eq_true_2 by done. by rewrite andb_false_r.
  - rewrite andb_true_iff, negb_true_iff, bool_decide_eq_false. done.
  - intros ->. rewrite bool_decide_eq_true_2 by done. by rewrite andb_false_r.
Qed.

Lemma observation_buffer_sync_draft :
  observation_buttons_render edited_page edited_assessment = true
  ∧ RequirementAssessment.observationBuffer
      <$> PageData.requirement_assessments (data (observation_save 0 edited_page).2) !! 0%nat
    = Some (Some "draft")
  ∧ RequirementAssessment.observation
      <$> PageData.requirement_assessments (data (observation_cancel 0 edited_page).2) !! 0%nat
    = Some (Some "saved").
Proof.
  pose proof (observation_buffer_sync edited_page 0 edited_assessment eq_refl)
    as ((c & _ & Hc & _ & Hc' & _) & Hsave & _).
  destruct (Hsave eq_refl) as (s & _ & Hs & _ & Hs' & Hs'' & _).
  split; [reflexivity|]. split.
  - rewrite Hs. cbn. by rewrite Hs', Hs''.
  - rewrite Hc. cbn. by rewrite Hc'.
Defined.

(** C10.  The cancel button of a record of the page returns, hands nothing
    to [fetch] and opens no modal; the record keeps every property but
    [observation], which takes the value of [observationBuffer], and the
    other records, [data.requirements] and the variables of the component
    are as before.  The save button of a rendered record hands exactly one
    request to [fetch], the post of the observation. *)
Theorem observation_cancel_local p k a :
  PageData.requirement_assessments (data p) !! k = Some a →
  observation_cancel k p
  = (Ok tt,
     with_requirement_assessments
       (<[k := RequirementAssessment.with_observation
                 (RequirementAssessment.observationBuffer a) a]>
          (PageData.requirement_assessments (data p))) p)
  ∧ fetched (observation_cancel k p).2 = fetched p
  ∧ modals (observation_cancel k p).2 = modals p
  ∧ PageData.requirements (data (observation_cancel k p).2) = PageData.requirements (data p)
  ∧ (∀ j, j ≠ k →
          PageData.requirement_assessments (data (observation_cancel k p).2) !! j
          = PageData.requirement_assessments (data p) !! j)
  ∧ (RequirementAssessment.assessable a = true →
     (observation_save k p).1 = Ok tt
     ∧ fetched (observation_save k p).2
       = (fetched p ++ [mkRequest (actionPath p +:+ "?/updateRequirementAssessment") "POST"
                          (<["observation" := scalar (RequirementAssessment.observation a)]>
                             {["id" := JString (RequirementAssessment.id a)]})])%list).
Proof.
  intros Hk. rewrite (observation_cancel_run p k a Hk). cbn. split_and!; try done.
  - intros j Hj. by apply list_lookup_insert_ne.
  - intros Ha. by rewrite (observation_save_run p k a Hk Ha).
Qed.

Lemma observation_cancel_local_draft :
  fetched (observation_cancel 0 edited_page).2 = []
  ∧ length (fetched (observation_save 0 edited_page).2) = 1%nat.
Proof.
  pose proof (observation_cancel_local edited_page 0 edited_assessment eq_refl)
    as (_ & Hf & _ & _ & _ & Hsave).
  destruct (Hsave eq_refl) as [_ Hs].
  split; [exact Hf|]. rewrite Hs. reflexivity.
Defined.

(** ** Further properties of the script *)

(** *** What every operation keeps *)

Section preserves.
Context (R : Page → Page → Prop) `{!PreOrder R}.

Lemma preserves_ret {A} (a : A) : preserves R (mret a).
Proof. intros p. cbn. reflexivity. Qed.

Lemma preserves_throw {A} (e : exn) : preserves R (@throw A e).
Proof. intros p. cbn. reflexivity. Qed.

Lemma preserves_get : preserves R get.
Proof. intros p. cbn. reflexivity. Qed.

Lemma preserves_defined {A} (what : string) (o : option A) :
  preserves R (defined what o).
Proof. destruct o; [apply preserves_ret | apply preserves_throw]. Qed.

Lemma preserves_bind {A B} (m : JS A) (f : A → JS B) :
  preserves R m → (∀ a, preserves R (f a)) → preserves R (m ≫= f).
Proof.
  intros Hm Hf p. unfold mbind, JS_bind. specialize (Hm p).
  destruct (m p) as [[a|e] p1]; cbn in *; [|done].
  etrans; [exact Hm | apply Hf].
Qed.

Lemma preserves_modify (g : Page → Page) :
  (∀ p, R p (g p)) → preserves R (modify g).
Proof. intros Hg p. apply Hg. Qed.

Lemma preserves_getElementById (i : string) : preserves R (getElementById i).
Proof.
  unfold getElementById. apply preserves_bind; [apply preserves_get|].
  intros p. apply preserves_ret.
Qed.

Lemma preserves_requirement_assessment (k : nat) :
  preserves R (requirement_assessment k).
Proof.
  unfold requirement_assessment. apply preserves_bind; [apply preserves_get|].
  intros p. apply preserves_defined.
Qed.

End preserves.

#[global] Instance same_records_preorder : PreOrder same_records.
Proof.
  split.
  - by intros p.
  - intros p1 p2 p3 (H1 & H2 & H3 & H4) (H1' & H2' & H3' & H4').
    unfold same_records. by rewrite H1', H2', H3', H4'.
Qed.

Lemma fmap_alter_same {A B} (g : A → B) (f : A → A) (k : nat) (l : list A) :
  (∀ a, g (f a) = g a) → g <$> alter f k l = g <$> l.
Proof.
  intros Hf. revert k. induction l as [|x l IH]; intros [|k]; cbn; [done..| |].
  - by rewrite Hf.
  - f_equal. apply IH.
Qed.

Lemma same_records_assign (k : nat) (f : RequirementAssessment.t → RequirementAssessment.t) :
  (∀ a, identity (f a) = identity a) → preserves same_records (assign k f).
Proof.
  intros Hf p. unfold same_records. cbn.
  by rewrite (fmap_alter_same identity f k _ Hf).
Qed.

Lemma same_records_fetch (u m : string) (b : gmap string JSON) :
  preserves same_records (fetch u m b).
Proof. by intros p. Qed.

Ltac preserves_step :=
  first
    [ apply (preserves_ret same_records)
    | apply (preserves_throw same_records)
    | apply (preserves_get same_records)
    | apply (preserves_defined same_records)
    | apply (preserves_getElementById same_records)
    | apply (preserves_requirement_assessment same_records)
    | apply same_records_fetch
    | apply same_records_assign; intros []; reflexivity
    | apply (preserves_bind same_records); [|intros ?]
    | exact same_records_preorder ].

Lemma same_records_update k field value question :
  preserves same_records (update k field value question).
Proof.
  unfold update. preserves_step.
  - destruct question as [question|]; repeat preserves_step.
  - repeat preserves_step.
Qed.

Lemma same_records_question_at k j : preserves same_records (question_at k j).
Proof. unfold question_at. repeat preserves_step. Qed.

Lemma same_records_merge : preserves same_records merge_createdEvidence.
Proof.
  unfold merge_createdEvidence. preserves_step; [preserves_step|].
  destruct (createdEvidence a) as [created|]; [|preserves_step].
  destruct (shallow a); [|preserves_step].
  preserves_step; [preserves_step|].
  preserves_step; [|preserves_step].
  all: intros p; unfold same_records; cbn; by rewrite ?fmap_alter_same.
Qed.

Lemma same_records_handlers k j option_id choice :
  preserves same_records (status_click k option_id)
  ∧ preserves same_records (result_click k option_id)
  ∧ preserves same_records (question_click k j choice)
  ∧ preserves same_records (question_change k j)
  ∧ preserves same_records (observation_save k)
  ∧ preserves same_records (observation_cancel k).
Proof.
  unfold status_click, result_click, question_click, question_change,
    observation_save, observation_cancel, assign_question_answer.
  split_and!;
    repeat first [ apply same_records_update
                 | apply same_records_question_at
                 | preserves_step ].
Qed.

Lemma same_records_form_changed created :
  preserves same_records (form_changed created).
Proof.
  unfold form_changed. preserves_step; [by intros p|].
  apply same_records_merge.
Qed.

Lemma same_records_modalConfirmDelete id name :
  preserves same_records (modalConfirmDelete id name).
Proof.
  intros p. rewrite modalConfirmDelete_run. unfold same_records. cbn.
  split_and!; try done.
  rewrite <- list_fmap_compose. by apply list_fmap_ext.
Qed.

(** The record index and the forms read the identity of the records only. *)
Lemma identity_inv a a' :
  identity a' = identity a →
  RequirementAssessment.id a' = RequirementAssessment.id a
  ∧ RequirementAssessment.requirement a' = RequirementAssessment.requirement a
  ∧ RequirementAssessment.display_short a' = RequirementAssessment.display_short a
  ∧ RequirementAssessment.name a' = RequirementAssessment.name a
  ∧ RequirementAssessment.assessable a' = RequirementAssessment.assessable a.
Proof.
  intros H. split_and!.
  - exact (f_equal (λ t, t.1.1.1.1.1) H).
  - exact (f_equal (λ t, t.1.1.1.1.2) H).
  - exact (f_equal (λ t, t.1.1.1.2) H).
  - exact (f_equal (λ t, t.1.1.2) H).
  - exact (f_equal (λ t, t.2) H).
Qed.

Lemma title_of_identity a a' : identity a' = identity a → title_of a' = title_of a.
Proof.
  intros (_ & _ & Hs & Hn & _)%identity_inv. unfold title_of. by rewrite Hs, Hn.
Qed.

Lemma fromEntries_identity (l l' : list RequirementAssessment.t) (key : string) :
  identity <$> l' = identity <$> l →
  identity <$> (fromEntries ((λ r, (RequirementAssessment.id r, r)) <$> l') !! key)
  = identity <$> (fromEntries ((λ r, (RequirementAssessment.id r, r)) <$> l) !! key).
Proof.
  revert l'. induction l as [|r l IH] using rev_ind; intros l' Hl.
  - destruct l'; [done|discriminate].
  - destruct l' as [|r' l' _] using rev_ind.
    { rewrite fmap_app in Hl. by destruct l. }
    rewrite !fmap_app in Hl. cbn in Hl.
    apply app_inj_2 in Hl as [Hl Hr]; [|done].
    assert (Hr' : identity r' = identity r) by congruence. clear Hr.
    rewrite !fmap_app. cbn. rewrite !fromEntries_snoc. cbn.
    destruct (identity_inv r r' Hr') as (Hid & _).
    rewrite Hid. destruct (decide (RequirementAssessment.id r = key)) as [->|Hne].
    + rewrite !lookup_insert_eq. cbn. by rewrite Hr'.
    + rewrite !lookup_insert_ne by done. by apply IH.
Qed.

Lemma forms_identity p p' : same_records p p' → forms p' = forms p.
Proof.
  intros (Hras & _ & _ & Hpath). unfold forms. rewrite Hpath.
  revert Hras.
  generalize (PageData.requirement_assessments (data p')) as l'.
  generalize (PageData.requirement_assessments (data p)) as l.
  induction l as [|a l IH]; intros [|a' l'] Hl; try done.
  rewrite !fmap_cons in Hl.
  assert (Ha : identity a' = identity a) by congruence.
  assert (Hl' : identity <$> l' = identity <$> l) by congruence.
  destruct (identity_inv a a' Ha) as (Hid & _ & _ & _ & Hass).
  rewrite !filter_cons, Hass.
  destruct (decide _); cbn; rewrite ?Hid, (IH l' Hl'); done.
Qed.

Lemma title_identity p p' a a' :
  same_records p p' → identity a' = identity a →
  title (requirementHashmap (data p')) a' = title (requirementHashmap (data p)) a.
Proof.
  intros (_ & Hreqs & _ & _) Ha. rewrite !title_title_of.
  destruct (identity_inv a a' Ha) as (_ & Hreq & _).
  rewrite Hreq. unfold requirementHashmap.
  pose proof (fromEntries_identity _ _ (RequirementAssessment.requirement a) Hreqs) as Hidx.
  destruct (fromEntries _ !! _) as [r'|], (fromEntries _ !! _) as [r|];
    cbn in *; try done.
  - apply title_of_identity. congruence.
  - destruct (Object_prototype _) as [[name|]|]; [done..|].
    by apply title_of_identity.
Qed.

(** *** What every operation sends *)

Lemma sends_weaken {A} (n n' : nat) (m : JS A) : (n ≤ n')%nat → sends n m → sends n' m.
Proof.
  intros Hn Hm p. destruct (Hm p) as (rs & Hrs & Hlen).
  exists rs. split; [done|lia].
Qed.

Lemma sends_ret {A} (a : A) : sends 0 (mret a).
Proof. intros p. exists []. cbn. by rewrite app_nil_r. Qed.

Lemma sends_throw {A} (e : exn) : sends 0 (@throw A e).
Proof. intros p. exists []. cbn. by rewrite app_nil_r. Qed.

Lemma sends_get : sends 0 get.
Proof. intros p. exists []. cbn. by rewrite app_nil_r. Qed.

Lemma sends_defined {A} (what : string) (o : option A) : sends 0 (defined what o).
Proof. destruct o; [apply sends_ret | apply sends_throw]. Qed.

Lemma sends_modify (g : Page → Page) :
  (∀ p, fetched (g p) = fetched p) → sends 0 (modify g).
Proof. intros Hg p. exists []. cbn. by rewrite app_nil_r. Qed.

Lemma sends_fetch (u m : string) (b : gmap string JSON) : sends 1 (fetch u m b).
Proof. intros p. by eexists [_]. Qed.

Lemma sends_bind {A B} (n1 n2 : nat) (m : JS A) (f : A → JS B) :
  sends n1 m → (∀ a, sends n2 (f a)) → sends (n1 + n2) (m ≫= f).
Proof.
  intros Hm Hf p. unfold mbind, JS_bind.
  destruct (Hm p) as (rs1 & Hrs1 & Hlen1).
  destruct (m p) as [[a|e] p1]; cbn in *.
  - destruct (Hf a p1) as (rs2 & Hrs2 & Hlen2).
    exists (rs1 ++ rs2)%list. rewrite Hrs2, Hrs1, app_assoc, length_app.
    split; [done|lia].
  - exists rs1. split; [done|lia].
Qed.

Lemma sends_bind_0 {A B} (n : nat) (m : JS A) (f : A → JS B) :
  sends 0 m → (∀ a, sends n (f a)) → sends n (m ≫= f).
Proof. apply (sends_bind 0 n). Qed.

Lemma sends_getElementById (i : string) : sends 0 (getElementById i).
Proof.
  unfold getElementById. apply sends_bind_0; [apply sends_get|].
  intros p. apply sends_ret.
Qed.

Lemma sends_requirement_assessment (k : nat) : sends 0 (requirement_assessment k).
Proof.
  unfold requirement_assessment. apply sends_bind_0; [apply sends_get|].
  intros p. apply sends_defined.
Qed.

Lemma sends_assign (k : nat) (f : RequirementAssessment.t → RequirementAssessment.t) :
  sends 0 (assign k f).
Proof. by apply sends_modify. Qed.

Ltac sends_step :=
  first
    [ apply sends_ret
    | apply sends_throw
    | apply sends_get
    | apply sends_defined
    | apply sends_getElementById
    | apply sends_requirement_assessment
    | apply sends_assign
    | apply sends_fetch
    | apply sends_modify; intros ?; reflexivity
    | apply sends_bind_0; [|intros ?] ].

Lemma sends_update k field value question :
  sends 1 (update k field value question).
Proof.
  unfold update. sends_step.
  - destruct question as [question|]; repeat sends_step.
  - repeat sends_step.
Qed.

Lemma sends_question_at k j : sends 0 (question_at k j).
Proof. unfold question_at. repeat sends_step. Qed.

Lemma sends_handlers k j option_id choice :
  sends 1 (status_click k option_id)
  ∧ sends 1 (result_click k option_id)
  ∧ sends 1 (question_click k j choice)
  ∧ sends 1 (question_change k j)
  ∧ sends 1 (observation_save k)
  ∧ sends 0 (observation_cancel k).
Proof.
  unfold status_click, result_click, question_click, question_change,
    observation_save, observation_cancel, assign_question_answer.
  split_and!.
  1-4: repeat first [ apply sends_update | apply sends_question_at | sends_step ].
  - sends_step; [sends_step|].
    apply (sends_bind 1 0); [apply sends_update|].
    intros _. repeat sends_step.
  - repeat sends_step.
Qed.

Lemma sends_merge : sends 0 merge_createdEvidence.
Proof.
  unfold merge_createdEvidence. sends_step; [sends_step|].
  destruct (createdEvidence a) as [created|]; [|sends_step].
  destruct (shallow a); repeat sends_step.
Qed.

Lemma sends_form_changed created : sends 0 (form_changed created).
Proof.
  unfold form_changed. sends_step; [sends_step|]. apply sends_merge.
Qed.

Lemma sends_modalConfirmDelete id name : sends 0 (modalConfirmDelete id name).
Proof. unfold modalConfirmDelete. repeat sends_step. Qed.

(** *** The record index *)

(** X1.  [Object.fromEntries] keeps, for an id that several requirements of
    [data.requirements] carry, the last of them: a requirement that no
    later requirement shares its id with is the one the index returns for
    that id. *)
Theorem requirementHashmap_last_wins d l1 r l2 :
  PageData.requirements d = (l1 ++ r :: l2)%list →
  (∀ r', r' ∈ l2 → RequirementAssessment.id r' ≠ RequirementAssessment.id r) →
  requirementHashmap d !! RequirementAssessment.id r = Some r.
Proof.
  intros Hd Hl2. unfold requirementHashmap. rewrite Hd, fmap_app, fmap_cons.
  apply fromEntries_lookup_last.
  intros e (r' & -> & Hr')%list_elem_of_fmap. by apply Hl2.
Qed.

Lemma requirementHashmap_last_wins_twin :
  requirementHashmap twin_requirements !! "q1" = Some (named_requirement "q1" "second").
Proof.
  apply (requirementHashmap_last_wins twin_requirements
           [named_requirement "q1" "first"] (named_requirement "q1" "second")
           [named_requirement "q2" "other"]).
  - reflexivity.
  - intros r' Hr'. apply list_elem_of_singleton in Hr' as ->. discriminate.
Defined.

(** X2.  When the ids of the requirements of [data.requirements] are
    pairwise distinct, the index returns every requirement for its own
    id. *)
Theorem requirementHashmap_distinct_ids d r :
  NoDup (RequirementAssessment.id <$> PageData.requirements d) →
  r ∈ PageData.requirements d →
  requirementHashmap d !! RequirementAssessment.id r = Some r.
Proof.
  intros Hnd (l1 & l2 & Hd)%list_elem_of_split.
  unfold requirementHashmap. rewrite Hd, fmap_app, fmap_cons.
  apply fromEntries_lookup_last.
  intros e (r' & -> & Hr')%list_elem_of_fmap. cbn.
  rewrite Hd, fmap_app, fmap_cons in Hnd.
  apply NoDup_app in Hnd as (_ & _ & Hnd). apply NoDup_cons in Hnd as [Hnot _].
  intros Heq. apply Hnot. rewrite <- Heq. by apply list_elem_of_fmap_2.
Qed.

Lemma requirementHashmap_distinct_ids_merge_page :
  requirementHashmap (data merge_page) !! "r2"
  = Some (example_assessment "r2" "to_do" None []).
Proof.
  apply (requirementHashmap_distinct_ids (data merge_page)
           (example_assessment "r2" "to_do" None [])).
  - cbn. apply NoDup_cons. split.
    + intros H. apply list_elem_of_singleton in H. discriminate.
    + apply NoDup_singleton.
  - apply (list_elem_of_lookup_2 _ 1%nat). reflexivity.
Defined.

(** X3.  When the requirement link of an assessment resolves in the index,
    the title is read from the requirement alone: assessments with the
    same link have the same title, and if the requirement has neither a
    short nor a long name the title is empty, whatever names the
    assessment itself carries. *)
Theorem title_of_resolved_requirement idx a r :
  idx !! RequirementAssessment.requirement a = Some r →
  title idx a = title_of r
  ∧ (∀ a', RequirementAssessment.requirement a' = RequirementAssessment.requirement a →
           title idx a' = title idx a)
  ∧ (truthy (RequirementAssessment.display_short r) = false →
     RequirementAssessment.name r = None → title idx a = "").
Proof.
  intros Hr. rewrite title_title_of, Hr. cbn. split_and!.
  - done.
  - intros a' Ha'. by rewrite title_title_of, Ha', Hr.
  - unfold title_of, truthy, strict_eq. intros Hs ->.
    destruct (RequirementAssessment.display_short r) as [s|]; [|done].
    destruct (decide (s = "")); [done|].
    by rewrite bool_decide_eq_false_2 in Hs.
Qed.

Lemma title_of_resolved_requirement_nameless :
  title (requirementHashmap (PageData.mk [nameless_requirement] [named_assessment]))
        named_assessment = "".
Proof.
  destruct (title_of_resolved_requirement
              (requirementHashmap (PageData.mk [nameless_requirement] [named_assessment]))
              named_assessment nameless_requirement eq_refl) as (_ & _ & H).
  exact (H eq_refl eq_refl).
Defined.

(** *** Invariants of the operations *)

(** X4.  No operation of the script changes the identity of a record, that
    is its id, its requirement link, its short and long names, its
    description or its [assessable] flag; none adds, drops or reorders
    records of [data.requirement_assessments] or [data.requirements]; none
    changes [shallow] or [actionPath].  This holds whether the operation
    returns or throws. *)
Theorem operations_keep_records p k j field value question option_id choice created id name :
  same_records p (update k field value question p).2
  ∧ same_records p (status_click k option_id p).2
  ∧ same_records p (result_click k option_id p).2
  ∧ same_records p (question_click k j choice p).2
  ∧ same_records p (question_change k j p).2
  ∧ same_records p (observation_save k p).2
  ∧ same_records p (observation_cancel k p).2
  ∧ same_records p (form_changed created p).2
  ∧ same_records p (modalConfirmDelete id name p).2.
Proof.
  destruct (same_records_handlers k j option_id choice)
    as (H1 & H2 & H3 & H4 & H5 & H6).
  split_and!.
  - apply same_records_update.
  - apply H1.
  - apply H2.
  - apply H3.
  - apply H4.
  - apply H5.
  - apply H6.
  - apply same_records_form_changed.
  - apply same_records_modalConfirmDelete.
Qed.

(** X5.  Between two states with the same records, the rendered forms are
    the same, so the form [update] looks up for a record is still there,
    and every assessment has the same title, also when the index is built
    again from the later state. *)
Theorem same_records_forms_titles p p' :
  same_records p p' →
  forms p' = forms p
  ∧ length (PageData.requirement_assessments (data p'))
    = length (PageData.requirement_assessments (data p))
  ∧ (∀ k a a',
       PageData.requirement_assessments (data p) !! k = Some a →
       PageData.requirement_assessments (data p') !! k = Some a' →
       title (requirementHashmap (data p')) a' = title (requirementHashmap (data p)) a).
Proof.
  intros H. split_and!.
  - by apply forms_identity.
  - destruct H as (Hras & _).
    by rewrite <- (length_fmap identity), Hras, length_fmap.
  - intros k a a' Hk Hk'. apply title_identity; [done|].
    destruct H as (Hras & _).
    apply (f_equal (λ l, l !! k)) in Hras.
    rewrite !list_lookup_fmap, Hk, Hk' in Hras. cbn in Hras. congruence.
Qed.

Lemma same_records_forms_titles_click :
  forms (status_click 0 "done" status_page).2 = forms status_page.
Proof.
  refine (proj1 (same_records_forms_titles status_page
                   (status_click 0 "done" status_page).2 _)).
  unfold same_records. split_and!; reflexivity.
Defined.

(** X6.  Every handler hands at most one request to [fetch] per call, after
    the requests already handed over, which it neither drops nor reorders;
    the cancel button of the observation, the evidence merge and the
    evidence removal hand over none. *)
Theorem operations_send_at_most_one p k j field value question option_id choice created id name :
  (∃ rs, fetched (update k field value question p).2 = (fetched p ++ rs)%list
         ∧ (length rs ≤ 1)%nat)
  ∧ (∃ rs, fetched (status_click k option_id p).2 = (fetched p ++ rs)%list
           ∧ (length rs ≤ 1)%nat)
  ∧ (∃ rs, fetched (result_click k option_id p).2 = (fetched p ++ rs)%list
           ∧ (length rs ≤ 1)%nat)
  ∧ (∃ rs, fetched (question_click k j choice p).2 = (fetched p ++ rs)%list
           ∧ (length rs ≤ 1)%nat)
  ∧ (∃ rs, fetched (question_change k j p).2 = (fetched p ++ rs)%list
           ∧ (length rs ≤ 1)%nat)
  ∧ (∃ rs, fetched (observation_save k p).2 = (fetched p ++ rs)%list
           ∧ (length rs ≤ 1)%nat)
  ∧ fetched (observation_cancel k p).2 = fetched p
  ∧ fetched (form_changed created p).2 = fetched p
  ∧ fetched (modalConfirmDelete id name p).2 = fetched p.
Proof.
  destruct (sends_handlers k j option_id choice)
    as (H1 & H2 & H3 & H4 & H5 & H6).
  assert (H0 : ∀ A (m : JS A), sends 0 m → fetched (m p).2 = fetched p).
  { intros A m Hm. destruct (Hm p) as (rs & -> & Hlen).
    destruct rs; [by rewrite app_nil_r | cbn in Hlen; lia]. }
  split_and!.
  - apply sends_update.
  - apply H1.
  - apply H2.
  - apply H3.
  - apply H4.
  - apply H5.
  - by apply H0.
  - apply H0, sends_form_changed.
  - apply H0, sends_modalConfirmDelete.
Qed.

(** *** [update] and the form *)

Lemma getElementById_result i p :
  ∃ o, getElementById i p = (Ok o, p)
       ∧ ∀ f, o = Some f → action f = update_url p.
Proof.
  unfold getElementById, get, mbind, mret, JS_bind, JS_ret, find.
  eexists. split; [done|]. intros f Hf.
  destruct (list_find _ (forms p)) as [[n f']|] eqn:Hfind; [|done].
  cbn in Hf. injection Hf as ->.
  apply list_find_Some in Hfind as (Hn & _).
  by eapply forms_action, list_elem_of_lookup_2.
Qed.

Lemma getElementById_none p i :
  (∀ a, a ∈ PageData.requirement_assessments (data p) →
        RequirementAssessment.assessable a = true →
        "tableModeForm-" +:+ RequirementAssessment.id a ≠ i) →
  getElementById i p = (Ok None, p).
Proof.
  intros Hno. unfold getElementById, get, mbind, mret, JS_bind, JS_ret, find.
  rewrite (proj2 (list_find_None _ _)); [done|].
  apply Forall_forall. intros f Hf. unfold forms in Hf.
  apply list_elem_of_fmap in Hf as (a & -> & Ha).
  apply list_elem_of_filter in Ha as [Hass Ha]. cbn.
  unfold strict_eq. rewrite bool_decide_eq_true. by apply Hno.
Qed.

(** X7.  [update] hands its request to [fetch] as its last step: when it
    returns, exactly one request was added, a [POST] to
    [{actionPath}?/updateRequirementAssessment] whose body has the key
    [field]; when it throws, nothing was sent. *)
Theorem update_sends_when_it_returns p k field value question :
  match (update k field value question p).1 with
  | Ok _ =>
      ∃ r, fetched (update k field value question p).2 = (fetched p ++ [r])%list
           ∧ url r = actionPath p +:+ "?/updateRequirementAssessment"
           ∧ method r = "POST"
           ∧ is_Some (body r !! field)
  | Throw _ => fetched (update k field value question p).2 = fetched p
  end.
Proof.
  js_run. destruct question as [question|]; cbn.
  - destruct (PageData.requirement_assessments (data p) !! k) as [a|] eqn:Hk;
      cbn; [|done].
    destruct (RequirementAssessment.answer a) as [b|]; cbn; [|done].
    destruct (at_index _ _) as [q|]; cbn; [|done].
    rewrite list_lookup_alter_eq, Hk. cbn.
    rewrite list_lookup_alter_eq, Hk. cbn.
    match goal with
    | |- context [getElementById ?i ?p1] =>
        destruct (getElementById_result i p1) as (o & -> & Ho)
    end.
    destruct o as [f|]; cbn; [|done].
    eexists. split; [done|]. cbn. split_and!; try done.
    + by apply Ho.
    + rewrite lookup_insert_eq. by eexists.
  - destruct (PageData.requirement_assessments (data p) !! k) as [a|] eqn:Hk;
      cbn; [|done].
    match goal with
    | |- context [getElementById ?i ?p1] =>
        destruct (getElementById_result i p1) as (o & -> & Ho)
    end.
    destruct o as [f|]; cbn; [|done].
    eexists. split; [done|]. cbn. split_and!; try done.
    + by apply Ho.
    + rewrite lookup_insert_eq. by eexists.
Qed.

(** X8.  For a record of [data.requirement_assessments] without rendered
    form, that is when no assessable record has its id, [update] without a
    question throws a [TypeError] on [form.action] and sends nothing; a
    click on a status item, were it possible, would by then have stored
    the new status in the record, which the server never receives. *)
Theorem update_without_form p k a :
  PageData.requirement_assessments (data p) !! k = Some a →
  (∀ a', a' ∈ PageData.requirement_assessments (data p) →
         RequirementAssessment.assessable a' = true →
         RequirementAssessment.id a' ≠ RequirementAssessment.id a) →
  (∀ field value, update k field value None p = (Throw (TypeError "form"), p))
  ∧ (∀ option_id,
       status_click k option_id p
       = (Throw (TypeError "form"),
          with_requirement_assessments
            (<[k := RequirementAssessment.with_status
                      (newStatus (RequirementAssessment.status a) option_id) a]>
               (PageData.requirement_assessments (data p))) p)).
Proof.
  intros Hk Hno. split.
  - intros field value. js_run. rewrite Hk. cbn.
    rewrite getElementById_none; [done|].
    intros a' Ha' Hass Heq. apply (Hno a' Ha' Hass).
    by apply (inj (String.append "tableModeForm-")) in Heq.
  - intros option_id. js_handler. rewrite Hk. cbn.
    rewrite (alter_lookup _ _ k a Hk).
    set (v := newStatus _ _). set (a1 := RequirementAssessment.with_status v a).
    set (p1 := with_requirement_assessments _ p).
    unfold update, requirement_assessment, defined, get, throw, mbind, mret,
      JS_bind, JS_ret. cbn.
    rewrite list_lookup_insert_eq by (by eapply lookup_lt_Some). cbn.
    rewrite getElementById_none; [done|].
    intros a' Ha' Hass Heq.
    apply (inj (String.append "tableModeForm-")) in Heq.
    subst p1. cbn in Ha'.
    apply list_elem_of_lookup in Ha' as [n Hn].
    destruct (decide (n = k)) as [->|Hne].
    + rewrite list_lookup_insert_eq in Hn by (by eapply lookup_lt_Some).
      injection Hn as <-.
      apply (Hno a); [by eapply list_elem_of_lookup_2 | done..].
    + rewrite list_lookup_insert_ne in Hn by done.
      apply (Hno a'); [by eapply list_elem_of_lookup_2 | done..].
Qed.

Lemma update_without_form_heading :
  update 0 "status" (Some "done") None heading_page
  = (Throw (TypeError "form"), heading_page).
Proof.
  refine (proj1 (update_without_form heading_page 0 heading_assessment eq_refl _)
            "status" (Some "done")).
  intros a' Ha' Hass. apply list_elem_of_singleton in Ha' as ->. discriminate.
Defined.

(** *** The question handlers *)

Lemma with_requirement_assessments_same p l :
  l = PageData.requirement_assessments (data p) →
  with_requirement_assessments l p = p.
Proof. intros ->. by destruct p as [[] ? ? ? ? ? ?]. Qed.

(** X9.  A click on a choice of the question at index [j], when no earlier
    question of the bundle has the urn of that question, returns for a
    rendered record: the answer of that question becomes the choice, or
    [null] if the choice was the answer, the other questions and records
    stay as they were, and one request is sent whose ['answer'] entry is
    the whole bundle with the new answer. *)
Theorem question_click_first_index p k j a b q choice :
  PageData.requirement_assessments (data p) !! k = Some a →
  RequirementAssessment.assessable a = true →
  RequirementAssessment.answer a = Some b →
  Answer.questions b !! j = Some q →
  (∀ i q', Answer.questions b !! i = Some q' → (i < j)%nat →
           Question.urn q' ≠ Question.urn q) →
  question_click k j choice p
  = (Ok tt,
     with_fetched
       (fetched p
        ++ [update_request p a "answer"
              (JAnswer (Answer.mk
                          (<[j := Question.with_answer
                                    (newAnswer (Question.answer q) choice) q]>
                             (Answer.questions b))))])
       (with_requirement_assessments
          (<[k := RequirementAssessment.with_answer
                    (Some (Answer.mk
                             (<[j := Question.with_answer
                                       (newAnswer (Question.answer q) choice) q]>
                                (Answer.questions b)))) a]>
             (PageData.requirement_assessments (data p))) p)).
Proof.
  intros Hk Ha Hb Hj Hfirst.
  pose proof (lookup_lt_Some _ _ _ Hk) as Hklt.
  pose proof (lookup_lt_Some _ _ _ Hj) as Hjlt.
  js_handler. rewrite Hk. cbn. rewrite Hb. cbn. rewrite Hj. cbn.
  rewrite (alter_lookup _ _ k a Hk). rewrite Hb. cbn.
  rewrite (alter_lookup _ _ j q Hj).
  rewrite list_lookup_insert_eq by done. cbn.
  rewrite list_lookup_insert_eq by done. cbn.
  set (v := newAnswer (Question.answer q) choice).
  set (q1 := Question.with_answer v q).
  set (b1 := Answer.mk (<[j := q1]> (Answer.questions b))).
  set (a1 := RequirementAssessment.with_answer (Some b1) a).
  set (p1 := with_requirement_assessments _ p).
  assert (Hk1 : PageData.requirement_assessments (data p1) !! k = Some a1).
  { subst p1. cbn. by apply list_lookup_insert_eq. }
  assert (Hj1 : Answer.questions b1 !! j = Some q1).
  { subst b1. cbn. by apply list_lookup_insert_eq. }
  rewrite (update_question_run p1 k a1 b1 j q1 v q1 Hk1 Ha eq_refl Hj1 eq_refl).
  - subst p1 a1 b1 q1. cbn. unfold update_request, update_url.
    cbn. by rewrite !list_insert_insert_eq.
  - intros i q' Hi Hlt. subst b1. cbn in Hi.
    rewrite list_lookup_insert_ne in Hi by lia. by apply (Hfirst i q').
Qed.

Lemma question_click_first_index_third :
  (RequirementAssessment.answer
     <$> PageData.requirement_assessments
           (data (question_click 0 2 "new" three_page).2) !! 0%nat)
  = Some (Some (Answer.mk [example_question "u0" None; example_question "u1" None;
                           example_question "u2" (Some "new")])).
Proof.
  rewrite (question_click_first_index three_page 0 2
             (example_assessment "r1" "to_do" (Some three_questions) [])
             three_questions (example_question "u2" (Some "old")) "new"
             eq_refl eq_refl eq_refl eq_refl).
  - reflexivity.
  - intros [|[|i]] q'; cbn; intros Hi Hlt; [| |lia]; by inversion Hi.
Defined.

(** X10.  A change of the date or text input of the question at index [j],
    when no earlier question of the bundle has the urn of that question,
    returns for a rendered record, leaves every record as the binding left
    it and sends one request whose ['answer'] entry is the whole bundle. *)
Theorem question_change_first_index p k j a b q :
  PageData.requirement_assessments (data p) !! k = Some a →
  RequirementAssessment.assessable a = true →
  RequirementAssessment.answer a = Some b →
  Answer.questions b !! j = Some q →
  (∀ i q', Answer.questions b !! i = Some q' → (i < j)%nat →
           Question.urn q' ≠ Question.urn q) →
  question_change k j p
  = (Ok tt, with_fetched (fetched p ++ [update_request p a "answer" (JAnswer b)]) p).
Proof.
  intros Hk Ha Hb Hj Hfirst.
  js_handler. rewrite Hk. cbn. rewrite Hb. cbn. rewrite Hj. cbn.
  rewrite (update_question_run p k a b j q (Question.answer q) q
             Hk Ha Hb Hj eq_refl Hfirst "answer").
  assert (Hq : Question.with_answer (Question.answer q) q = q) by by destruct q.
  rewrite Hq, (list_insert_id _ _ _ Hj).
  assert (Hb' : Answer.mk (Answer.questions b) = b) by by destruct b.
  rewrite Hb'.
  assert (Ha' : RequirementAssessment.with_answer (Some b) a = a).
  { destruct a. cbn in Hb. by subst. }
  rewrite Ha', (list_insert_id _ _ _ Hk).
  by rewrite with_requirement_assessments_same.
Qed.

Lemma question_change_first_index_third :
  data (question_change 0 2 three_page).2 = data three_page
  ∧ length (fetched (question_change 0 2 three_page).2) = 1%nat.
Proof.
  rewrite (question_change_first_index three_page 0 2
             (example_assessment "r1" "to_do" (Some three_questions) [])
             three_questions (example_question "u2" (Some "old"))
             eq_refl eq_refl eq_refl eq_refl).
  - split; reflexivity.
  - intros [|[|i]] q'; cbn; intros Hi Hlt; [| |lia]; by inversion Hi.
Defined.

(** *** Handlers in sequence *)

(** X11.  Two clicks in a row on the same status item of a rendered record
    both return and send two requests, in the order of the clicks, the
    first with the value after the first click and the second with the
    value after the second.  If the item was not the current status the
    record ends at ['to_do']; if it was, and is not ['to_do'], the record
    ends at the item again. *)
Theorem status_click_twice p k a option_id :
  PageData.requirement_assessments (data p) !! k = Some a →
  RequirementAssessment.assessable a = true →
  (status_click k option_id (status_click k option_id p).2).1 = Ok tt
  ∧ PageData.requirement_assessments
      (data (status_click k option_id (status_click k option_id p).2).2) !! k
    = Some (RequirementAssessment.with_status
              (newStatus (newStatus (RequirementAssessment.status a) option_id)
                 option_id) a)
  ∧ fetched (status_click k option_id (status_click k option_id p).2).2
    = (fetched p
       ++ [update_request p a "status"
             (JString (newStatus (RequirementAssessment.status a) option_id));
           update_request p a "status"
             (JString (newStatus (newStatus (RequirementAssessment.status a) option_id)
                         option_id))])%list
  ∧ (RequirementAssessment.status a ≠ option_id →
     newStatus (newStatus (RequirementAssessment.status a) option_id) option_id
     = "to_do")
  ∧ (RequirementAssessment.status a = option_id → option_id ≠ "to_do" →
     newStatus (newStatus (RequirementAssessment.status a) option_id) option_id
     = option_id).
Proof.
  intros Hk Ha. pose proof (lookup_lt_Some _ _ _ Hk) as Hklt.
  rewrite (status_click_run p k a option_id Hk Ha). cbn.
  set (v1 := newStatus (RequirementAssessment.status a) option_id).
  set (a1 := RequirementAssessment.with_status v1 a).
  set (p1 := with_fetched _ _).
  assert (Hk1 : PageData.requirement_assessments (data p1) !! k = Some a1).
  { subst p1. cbn. by apply list_lookup_insert_eq. }
  rewrite (status_click_run p1 k a1 option_id Hk1 Ha). cbn.
  split_and!.
  - done.
  - rewrite list_insert_insert_eq. by apply list_lookup_insert_eq.
  - by rewrite <- app_assoc.
  - intros Hne. subst v1. unfold newStatus, strict_eq.
    rewrite (bool_decide_eq_false_2 _ Hne). by rewrite bool_decide_eq_true_2.
  - intros Heq Hne. subst v1. unfold newStatus, strict_eq.
    rewrite (bool_decide_eq_true_2 _ Heq).
    by rewrite bool_decide_eq_false_2 by done.
Qed.

Lemma status_click_twice_done :
  RequirementAssessment.status
    <$> PageData.requirement_assessments
          (data (status_click 0 "done" (status_click 0 "done" status_page).2).2) !! 0%nat
  = Some "to_do".
Proof.
  destruct (status_click_twice status_page 0
              (example_assessment "r1" "to_do" None []) "done" eq_refl eq_refl)
    as (_ & H & _).
  rewrite H. reflexivity.
Defined.

(** X12.  After the save button of a rendered record, the cancel button
    changes nothing: the saved observation is not reverted.  The cancel
    button pressed a second time changes nothing either. *)
Theorem observation_cancel_after_save p k a :
  PageData.requirement_assessments (data p) !! k = Some a →
  observation_cancel k (observation_cancel k p).2
  = (Ok tt, (observation_cancel k p).2)
  ∧ (RequirementAssessment.assessable a = true →
     observation_cancel k (observation_save k p).2
     = (Ok tt, (observation_save k p).2)).
Proof.
  intros Hk. pose proof (lookup_lt_Some _ _ _ Hk) as Hklt. split.
  - rewrite (observation_cancel_run p k a Hk). cbn.
    set (a1 := RequirementAssessment.with_observation _ a).
    set (p1 := with_requirement_assessments _ p).
    assert (Hk1 : PageData.requirement_assessments (data p1) !! k = Some a1).
    { subst p1. cbn. by apply list_lookup_insert_eq. }
    rewrite (observation_cancel_run p1 k a1 Hk1). f_equal.
    subst p1. unfold with_requirement_assessments. cbn.
    by rewrite list_insert_insert_eq.
  - intros Ha. rewrite (observation_save_run p k a Hk Ha). cbn.
    set (a1 := RequirementAssessment.with_observationBuffer _ a).
    set (p1 := with_requirement_assessments _ _).
    assert (Hk1 : PageData.requirement_assessments (data p1) !! k = Some a1).
    { subst p1. cbn. by apply list_lookup_insert_eq. }
    rewrite (observation_cancel_run p1 k a1 Hk1). f_equal.
    subst p1. unfold with_requirement_assessments. cbn.
    by rewrite list_insert_insert_eq.
Qed.

Lemma observation_cancel_after_save_draft :
  RequirementAssessment.observation
    <$> PageData.requirement_assessments
          (data (observation_cancel 0 (observation_save 0 edited_page).2).2) !! 0%nat
  = Some (Some "draft").
Proof.
  destruct (observation_cancel_after_save edited_page 0 edited_assessment eq_refl)
    as [_ H].
  rewrite (H eq_refl). reflexivity.
Defined.

(** *** The evidence merge *)

(** X13.  Running the reactive statement of the merge a second time on the
    state it left changes nothing.  When the first run returned, the second
    returns and leaves the state as it is, so the evidence is not appended
    twice.  When the first run threw, which is the miss, it left the state
    as it was before, and the second run throws the same error and leaves
    the state so again. *)
Theorem merge_createdEvidence_again p :
  (merge_createdEvidence (merge_createdEvidence p).2).2 = (merge_createdEvidence p).2
  ∧ ((merge_createdEvidence p).1 = Ok tt →
     merge_createdEvidence (merge_createdEvidence p).2
     = (Ok tt, (merge_createdEvidence p).2))
  ∧ (∀ e, (merge_createdEvidence p).1 = Throw e →
          (merge_createdEvidence p).2 = p
          ∧ merge_createdEvidence (merge_createdEvidence p).2 = (Throw e, p)).
Proof.
  destruct (createdEvidence p) as [created|] eqn:Hc.
  - destruct (shallow p) eqn:Hs.
    + destruct (find (λ requirementAssessment,
                        Some (RequirementAssessment.id requirementAssessment)
                        === head (CreatedEvidence.requirements created))
                     (PageData.requirements (data p))) as [[i a]|] eqn:Hf.
      * rewrite (merge_found p created i a Hc Hs Hf). cbn.
        rewrite merge_skipped by (by left). done.
      * assert (Hmiss : merge_createdEvidence p = (Throw (TypeError "find(...)"), p)).
        { apply (merge_missing p created Hc Hs).
          intros a Ha Heq. apply list_find_None in Hf.
          rewrite Forall_forall in Hf. apply (Hf a Ha).
          unfold strict_eq. by apply bool_decide_eq_true. }
        rewrite Hmiss. cbn. rewrite Hmiss. split_and!; [done..|].
        by intros e [= <-].
    + rewrite (merge_skipped p) by (by right). cbn.
      rewrite (merge_skipped p) by (by right). done.
  - rewrite (merge_skipped p) by (by left). cbn.
    rewrite (merge_skipped p) by (by left). done.
Qed.

Example merge_createdEvidence_again_stray :
  merge_createdEvidence (with_createdEvidence (Some stray_pdf) merge_page)
  = (Throw (TypeError "find(...)"), with_createdEvidence (Some stray_pdf) merge_page)
  ∧ merge_createdEvidence
      (merge_createdEvidence (with_createdEvidence (Some stray_pdf) merge_page)).2
    = (Throw (TypeError "find(...)"), with_createdEvidence (Some stray_pdf) merge_page).
Proof. split; reflexivity. Qed.

(** X14.  A creation result whose [requirements] list is empty cannot be
    merged on a shallow page: [requirements[0]] is [undefined], no record
    has that id, and the merge throws with every record as before. *)
Theorem merge_without_requirement p created :
  shallow p = true →
  CreatedEvidence.requirements created = [] →
  form_changed (Some created) p
  = (Throw (TypeError "find(...)"), with_createdEvidence (Some created) p).
Proof.
  intros Hs Hr. apply (form_changed_missing p created Hs).
  intros a _. by rewrite Hr.
Qed.

Lemma merge_without_requirement_orphan :
  form_changed (Some orphan_pdf) merge_page
  = (Throw (TypeError "find(...)"), with_createdEvidence (Some orphan_pdf) merge_page).
Proof. exact (merge_without_requirement merge_page orphan_pdf eq_refl eq_refl). Defined.

(** X15.  On a page that renders the button opening the evidence creation
    modal for some record, that is a page that is not shallow, a creation
    result is stored in [createdEvidence] and nothing else happens: no
    evidence list changes, the counter keeps its value and the slot stays
    pending. *)
Theorem form_changed_with_evidence_buttons p a created :
  evidence_buttons_render p a = true →
  form_changed created p = (Ok tt, with_createdEvidence created p).
Proof.
  intros [_ Hs%negb_true_iff]%andb_true_iff.
  unfold form_changed, modify, mbind, JS_bind. cbn.
  by rewrite merge_skipped by (by right).
Qed.

Lemma form_changed_with_evidence_buttons_policy :
  form_changed (Some policy_pdf) status_page
  = (Ok tt, with_createdEvidence (Some policy_pdf) status_page).
Proof.
  exact (form_changed_with_evidence_buttons status_page
           (example_assessment "r1" "to_do" None []) (Some policy_pdf) eq_refl).
Defined.

(** *** The evidence removal *)






(** X17.  Removing the same evidence a second time changes no evidence
    list, and two removals give the same evidence lists in either order;
    each call still hands one modal to the modal store. *)
Theorem modalConfirmDelete_twice p id id' name name' :
  PageData.requirements
    (data (modalConfirmDelete id name' (modalConfirmDelete id name p).2).2)
  = PageData.requirements (data (modalConfirmDelete id name p).2)
  ∧ PageData.requirements
      (data (modalConfirmDelete id' name' (modalConfirmDelete id name p).2).2)
    = PageData.requirements
        (data (modalConfirmDelete id name (modalConfirmDelete id' name' p).2).2)
  ∧ modals (modalConfirmDelete id' name' (modalConfirmDelete id name p).2).2
    = (modals p ++ [mkModal "/evidences?/delete" id name;
                    mkModal "/evidences?/delete" id' name'])%list.
Proof.
  rewrite !modalConfirmDelete_run. cbn. split_and!.
  - rewrite <- list_fmap_compose. apply list_fmap_ext. intros _ a _.
    unfold without_evidence, RequirementAssessment.with_evidences. cbn.
    rewrite list_filter_filter. f_equal. apply list_filter_iff. tauto.
  - rewrite <- !list_fmap_compose. apply list_fmap_ext. intros _ a _.
    unfold without_evidence, RequirementAssessment.with_evidences. cbn.
    rewrite !list_filter_filter. f_equal. apply list_filter_iff. tauto.
  - by rewrite <- app_assoc.
Qed.



(** *** The ids of the evidences of a record *)

Lemma NoDup_fmap_filter {A B} (f : A → B) (P : A → Prop) `{!∀ x, Decision (P x)}
    (l : list A) :
  NoDup (f <$> l) → NoDup (f <$> filter P l).
Proof.
  induction l as [|x l IH]; [done|].
  rewrite fmap_cons, NoDup_cons. intros [Hx Hl].
  rewrite filter_cons. destruct (decide (P x)); [|by apply IH].
  rewrite fmap_cons, NoDup_cons. split; [|by apply IH].
  intros (y & Hy & Hin)%list_elem_of_fmap. apply Hx.
  apply list_elem_of_fmap. exists y. split; [done|].
  by apply list_elem_of_filter in Hin as [_ ?].
Qed.

(** X19.  If the evidences of every record of [data.requirements] have
    pairwise distinct ids, they still have after a removal, and after a
    merge whose evidence id the matching record did not hold.  The merge
    does not look for the id: when the matching record already holds an
    evidence of that id, the merge leaves it with two. *)
Theorem evidence_ids_distinct p :
  (∀ r, r ∈ PageData.requirements (data p) →
        NoDup (Evidence.id <$> RequirementAssessment.evidences r)) →
  (∀ id name r,
     r ∈ PageData.requirements (data (modalConfirmDelete id name p).2) →
     NoDup (Evidence.id <$> RequirementAssessment.evidences r))
  ∧ (∀ created i a,
       shallow p = true →
       find (λ requirementAssessment,
               Some (RequirementAssessment.id requirementAssessment)
               === head (CreatedEvidence.requirements created))
            (PageData.requirements (data p)) = Some (i, a) →
       ((∀ evidence, evidence ∈ RequirementAssessment.evidences a →
                     Evidence.id evidence ≠ CreatedEvidence.id created) →
        ∀ r, r ∈ PageData.requirements (data (form_changed (Some created) p).2) →
             NoDup (Evidence.id <$> RequirementAssessment.evidences r))
       ∧ (∀ evidence, evidence ∈ RequirementAssessment.evidences a →
                      Evidence.id evidence = CreatedEvidence.id created →
          ∃ r, PageData.requirements (data (form_changed (Some created) p).2) !! i
               = Some r
               ∧ ¬ NoDup (Evidence.id <$> RequirementAssessment.evidences r))).
Proof.
  intros Hnd. split.
  - intros id name r. rewrite modalConfirmDelete_run. cbn.
    intros (a & -> & Ha)%list_elem_of_fmap. cbn.
    by apply NoDup_fmap_filter, Hnd.
  - intros created i a Hs Hf.
    rewrite (form_changed_found p created i a Hs Hf). cbn.
    apply list_find_Some in Hf as (Hi & _).
    pose proof (lookup_lt_Some _ _ _ Hi) as Hlt.
    pose proof (list_elem_of_lookup_2 _ _ _ Hi) as Ha. split.
    + intros Hfresh r Hr.
      apply list_elem_of_lookup in Hr as [n Hn].
      destruct (decide (n = i)) as [->|Hne].
      * rewrite list_lookup_insert_eq in Hn by done. injection Hn as <-. cbn.
        rewrite fmap_app. apply NoDup_app. split_and!.
        -- by apply Hnd.
        -- intros x (e & -> & He)%list_elem_of_fmap Hx. cbn in Hx.
           apply list_elem_of_singleton in Hx. by apply (Hfresh e).
        -- apply NoDup_singleton.
      * rewrite list_lookup_insert_ne in Hn by done.
        by eapply Hnd, list_elem_of_lookup_2.
    + intros e He Heq. eexists. split; [by apply list_lookup_insert_eq|]. cbn.
      rewrite fmap_app. intros (_ & Hdisj & _)%NoDup_app.
      apply (Hdisj (Evidence.id e)).
      * by apply list_elem_of_fmap_2.
      * cbn. apply list_elem_of_singleton. done.
Qed.

Lemma evidence_ids_distinct_removal :
  Forall (λ r, NoDup (Evidence.id <$> RequirementAssessment.evidences r))
         (PageData.requirements (data (modalConfirmDelete "e1" "one" removal_page).2)).
Proof.
  apply Forall_forall.
  refine (proj1 (evidence_ids_distinct removal_page _) "e1" "one").
  intros r Hr.
  apply list_elem_of_lookup in Hr as [[|[|n]] Hn]; cbn in Hn; simplify_eq; cbn.
  - apply NoDup_cons. split; [|apply NoDup_singleton].
    intros H. apply list_elem_of_singleton in H. discriminate.
  - apply NoDup_singleton.
Defined.

(** *** The mode selector *)

(** X20.  The mode switch is rendered exactly when the two overrides
    [questionnaireOnly] and [assessmentOnly] have the same value.  When
    only one of them is set the switch is hidden and the page starts in
    the mode of that override, whoever the viewer is; when both are set
    the page starts in questionnaire mode and the switch is rendered; when
    none is set the page starts in questionnaire mode exactly for a
    third-party viewer.  In questionnaire mode the status and result items
    of no record are rendered. *)
Theorem questionnaireMode_overrides questionnaireOnly assessmentOnly is_third_party :
  (mode_switch_renders questionnaireOnly assessmentOnly = true
   ↔ questionnaireOnly = assessmentOnly)
  ∧ (mode_switch_renders questionnaireOnly assessmentOnly = false →
     questionnaireMode questionnaireOnly assessmentOnly is_third_party = questionnaireOnly
     ∧ questionnaireMode questionnaireOnly assessmentOnly is_third_party
       = negb assessmentOnly)
  ∧ (questionnaireOnly = true → assessmentOnly = true →
     questionnaireMode questionnaireOnly assessmentOnly is_third_party = true
     ∧ mode_switch_renders questionnaireOnly assessmentOnly = true)
  ∧ (questionnaireOnly = false → assessmentOnly = false →
     questionnaireMode questionnaireOnly assessmentOnly is_third_party = is_third_party)
  ∧ (∀ a, questionnaireMode questionnaireOnly assessmentOnly is_third_party = true →
          status_controls_render
            (questionnaireMode questionnaireOnly assessmentOnly is_third_party) a
          = false).
Proof.
  split_and!.
  - destruct questionnaireOnly, assessmentOnly; cbn; split; done.
  - destruct questionnaireOnly, assessmentOnly; cbn; done.
  - by intros -> ->.
  - intros -> ->. by destruct is_third_party.
  - intros a ->. unfold status_controls_render. by rewrite andb_false_r.
Qed.
